(** * GlucoGuide dashboard: view-state model of the four screens

    A shallow embedding of the client-side logic of the dashboard
    (ChatSection, MealSimulator, TrendsSection and the sidebar) together
    with the properties of its interaction model.

    Conventions.
    - A JavaScript string is the list of its UTF-16 code units.
    - A JavaScript number that holds a clock reading or a sample value is
      an integer of [Z].
    - React state is a record; an event handler is a function on the
      record.  The component is re-rendered after every handler, so a
      handler always sees the state left by the previous one.
    - [setTimeout] is modelled by an explicit list of due times kept next
      to the component state and a clock that [Elapse] events advance. *)

From Stdlib Require Import ZArith NArith List String Ascii Bool.
From Stdlib Require Import DecimalString DecimalPos DecimalZ Sorted Lia.
Import ListNotations.

Open Scope Z_scope.

(** ** JavaScript strings *)

Module JS.

Definition jsstring := list N.

(** A source literal.  Every literal taken from the source is ASCII. *)
Definition lit (s : string) : jsstring :=
  map N_of_ascii (list_ascii_of_string s).

(** [WhiteSpace] and [LineTerminator] of ECMAScript: the code units that
    [String.prototype.trim] strips. *)
Definition isWhiteSpace (c : N) : bool :=
  (((9 <=? c) && (c <=? 13))
   || (c =? 32) || (c =? 160) || (c =? 5760)
   || ((8192 <=? c) && (c <=? 8202))
   || (c =? 8232) || (c =? 8233) || (c =? 8239) || (c =? 8287)
   || (c =? 12288) || (c =? 65279))%N.

Fixpoint trimStart (s : jsstring) : jsstring :=
  match s with
  | [] => []
  | c :: s' => if isWhiteSpace c then trimStart s' else s
  end.

Definition trimEnd (s : jsstring) : jsstring :=
  rev (trimStart (rev s)).

Definition trim (s : jsstring) : jsstring :=
  trimEnd (trimStart s).

(** [!s] on a string: only the empty string is falsy. *)
Definition isFalsy (s : jsstring) : bool :=
  match s with
  | [] => true
  | _ :: _ => false
  end.

(** [a === b] on strings: same code units in the same order. *)
Fixpoint strictEq (a b : jsstring) : bool :=
  match a, b with
  | [], [] => true
  | x :: a', y :: b' => (x =? y)%N && strictEq a' b'
  | _, _ => false
  end.

(** [n.toString()] for an integral number: decimal digits, a leading
    minus sign when negative. *)
Definition toString (n : Z) : jsstring :=
  lit (NilZero.string_of_int (Z.to_int n)).

End JS.

Import JS.

(** ** Timers

  Every screen that uses [setTimeout] registers one kind of callback with
  one fixed delay, so a pending timer is its due time and the pending
  timers are kept in registration order, which is also due order. *)

Module Loop.
Section Loop.

Variable State : Type.

(** The callback body; its first argument is what [Date.now()] reads
    when it runs. *)
Variable fire : Z -> State -> State.

Record World := mkWorld {
  ui : State;
  clock : Z;
  timers : list Z
}.

(** Runs, in order, the callbacks that are due by [deadline]; returns
    the state they leave and the timers still pending.  A callback runs
    at its due time, the earliest moment the timer allows. *)
Fixpoint runDue (deadline : Z) (ts : list Z) (s : State)
  : State * list Z :=
  match ts with
  | [] => (s, [])
  | t :: ts' =>
      if t <=? deadline
      then runDue deadline ts' (fire t s)
      else let (s', rest) := runDue deadline ts' s in (s', t :: rest)
  end.

Definition elapse (ms : N) (w : World) : World :=
  let deadline := clock w + Z.of_N ms in
  let (s', rest) := runDue deadline (timers w) (ui w) in
  mkWorld s' deadline rest.

(** A handler that only assigns component state. *)
Definition setState (f : State -> State) (w : World) : World :=
  mkWorld (f (ui w)) (clock w) (timers w).

(** [setTimeout(callback, delay)]. *)
Definition setTimeout (delay : Z) (w : World) : World :=
  mkWorld (ui w) (clock w) (timers w ++ [clock w + delay]).

End Loop.

Arguments mkWorld {State}.
Arguments ui {State}.
Arguments clock {State}.
Arguments timers {State}.
Arguments runDue {State}.
Arguments elapse {State}.
Arguments setState {State}.
Arguments setTimeout {State}.

End Loop.

(** ** Sidebar navigation (AppSidebar) *)

Module Nav.

Record MenuItem := mkItem {
  title : jsstring;
  url : jsstring
}.

(** The icon and emoji of an entry are display only and left out. *)
Definition menuItems : list MenuItem :=
  [ mkItem (lit "Chat with Agent") (lit "/");
    mkItem (lit "Glucose Trends") (lit "/trends");
    mkItem (lit "Meal Simulator") (lit "/meal-sim");
    mkItem (lit "Settings") (lit "/settings") ].

(** [const isActive = (path) => currentPath === path], with the
    [currentPath] it closes over made a parameter. *)
Definition isActive (currentPath path : jsstring) : bool :=
  strictEq currentPath path.

(** The highlight flag of each sidebar entry, in menu order. *)
Definition highlighted (currentPath : jsstring) : list bool :=
  map (fun item => isActive currentPath (url item)) menuItems.

End Nav.

(** ** Chat screen (ChatSection) *)

Module Chat.

Inductive MessageType := user | agent.

Record ChatMessage := mkMessage {
  id : jsstring;
  type : MessageType;
  content : jsstring;
  timestamp : Z
}.

Record State := mkState {
  messages : list ChatMessage;
  inputMessage : jsstring;
  isLoading : bool
}.

Definition World := Loop.World State.

Definition greeting : jsstring :=
  lit "Hello! I'm your GlucoGuide Agent. I can help you understand your blood sugar patterns, simulate meal impacts, and provide personalized insights. What would you like to know?".

Definition demoResponse : jsstring :=
  lit "I understand your question about glucose patterns. Based on typical patterns, let me analyze this for you. This is a demo response - in the full version, I'd connect to your AWS Bedrock agent for personalized insights.".

(** The three [useState] initial values; [now] is the clock reading
    at mount. *)
Definition initialState (now : Z) : State :=
  mkState [mkMessage (lit "1") agent greeting now] [] false.

Definition mount (now : Z) : World :=
  Loop.mkWorld (initialState now) now [].

Definition setMessages (f : list ChatMessage -> list ChatMessage)
    (s : State) : State :=
  mkState (f (messages s)) (inputMessage s) (isLoading s).

Definition setInputMessage (v : jsstring) (s : State) : State :=
  mkState (messages s) v (isLoading s).

Definition setIsLoading (b : bool) (s : State) : State :=
  mkState (messages s) (inputMessage s) b.

(** The body of the [setTimeout] callback of [handleSendMessage]. *)
Definition agentResponse (now : Z) : ChatMessage :=
  mkMessage (toString (now + 1)) agent demoResponse now.

Definition onReply (now : Z) (s : State) : State :=
  setIsLoading false
    (setMessages (fun prev => prev ++ [agentResponse now]) s).

Definition userMessage (now : Z) (s : State) : ChatMessage :=
  mkMessage (toString now) user (inputMessage s) now.

Definition handleSendMessage (w : World) : World :=
  if isFalsy (trim (inputMessage (Loop.ui w))) then w
  else
    let msg := userMessage (Loop.clock w) (Loop.ui w) in
    Loop.setTimeout 1000
      (Loop.setState
         (fun s =>
            setIsLoading true
              (setInputMessage []
                 (setMessages (fun prev => prev ++ [msg]) s)))
         w).

Inductive QuickAction := SimulateMeal | WeeklyTrends | WhyDidISpike.

Definition quickPrompt (a : QuickAction) : jsstring :=
  match a with
  | SimulateMeal => lit "Simulate the impact of my typical breakfast"
  | WeeklyTrends => lit "Show me my glucose trends from this week"
  | WhyDidISpike =>
      lit "Why did my glucose spike last night after dinner?"
  end.

(** [disabled] of the send button. *)
Definition sendDisabled (s : State) : bool :=
  isFalsy (trim (inputMessage s)) || isLoading s.

(** What the user, or the passing of time, can do to the screen. *)
Inductive Event :=
| Change (value : jsstring)      (* onChange of the input *)
| Quick (a : QuickAction)        (* click on a quick action *)
| KeyPress (key : jsstring)      (* onKeyPress of the input *)
| ClickSend                      (* click on the send button *)
| Elapse (ms : N).               (* ms milliseconds pass *)

Definition step (w : World) (e : Event) : World :=
  match e with
  | Change v => Loop.setState (setInputMessage v) w
  | Quick a => Loop.setState (setInputMessage (quickPrompt a)) w
  | KeyPress key =>
      if strictEq key (lit "Enter") then handleSendMessage w else w
  | ClickSend =>
      if sendDisabled (Loop.ui w) then w else handleSendMessage w
  | Elapse ms => Loop.elapse onReply ms w
  end.

Definition run (w : World) (es : list Event) : World :=
  fold_left step es w.

Definition reachable (w : World) : Prop :=
  exists now es, w = run (mount now) es.

Definition ids (w : World) : list jsstring :=
  map id (messages (Loop.ui w)).

(** The two ways of sending the draft. *)
Inductive Trigger := Button | EnterKey.

Definition send (t : Trigger) (w : World) : World :=
  match t with
  | Button => step w ClickSend
  | EnterKey => step w (KeyPress (lit "Enter"))
  end.

(** Sessions in which the keyboard is not used to send. *)
Definition noKeyPress (e : Event) : bool :=
  match e with
  | KeyPress _ => false
  | _ => true
  end.

(** The loading flag is up exactly when one reply timer is pending. *)
Definition settled (w : World) : Prop :=
  (isLoading (Loop.ui w) = false /\ Loop.timers w = [])
  \/ (isLoading (Loop.ui w) = true /\ exists t, Loop.timers w = [t]).

(** Whether a message is by the given author, and how many messages of a
    list are. *)
Definition isBy (author : MessageType) (m : ChatMessage) : bool :=
  match author, type m with
  | user, user => true
  | agent, agent => true
  | _, _ => false
  end.

Definition countBy (author : MessageType) (ms : list ChatMessage) : nat :=
  List.length (filter (isBy author) ms).

(** Timing discipline of a session: every pending reply is due in the
    future, at most 1000 ms ahead, and the replies are pending in due
    order; no message is stamped later than the clock and the stamps
    never decrease along the conversation. *)
Definition wellTimed (w : World) : Prop :=
  Forall (fun t => Loop.clock w < t <= Loop.clock w + 1000) (Loop.timers w)
  /\ StronglySorted Z.le (Loop.timers w)
  /\ Forall (fun m => timestamp m <= Loop.clock w) (messages (Loop.ui w))
  /\ StronglySorted Z.le (map timestamp (messages (Loop.ui w))).

(** A reply as the timer callback builds it. *)
Definition cannedReply (m : ChatMessage) : Prop :=
  type m = agent /\ content m = demoResponse.

(** The shapes a single event can give the next state. *)
Inductive StepShape (w w' : World) : Prop :=
| Typed (v : jsstring) :
    w' = Loop.setState (setInputMessage v) w -> StepShape w w'
| Sent :
    w' = Loop.mkWorld
           (mkState
              (messages (Loop.ui w) ++ [userMessage (Loop.clock w) (Loop.ui w)])
              [] true)
           (Loop.clock w)
           (Loop.timers w ++ [Loop.clock w + 1000]) ->
    StepShape w w'
| Waited (ms : N) :
    w' = step w (Elapse ms) -> StepShape w w'.

End Chat.

(** ** Meal simulator screen (MealSimulator) *)

Module MealSim.

Record MealForm := mkForm {
  description : jsstring;
  carbs : jsstring;
  gi : jsstring;
  insulin : jsstring
}.

Record State := mkState {
  mealForm : MealForm;
  isSimulating : bool;
  showPrediction : bool
}.

Definition World := Loop.World State.

Record PredictionPoint := mkPoint {
  time : Z;
  predicted_glucose : Z;
  baseline : Z
}.

Definition predictionData : list PredictionPoint :=
  [ mkPoint 0 95 95;
    mkPoint 15 98 95;
    mkPoint 30 115 95;
    mkPoint 45 135 95;
    mkPoint 60 155 95;
    mkPoint 75 145 95;
    mkPoint 90 130 95;
    mkPoint 105 120 95;
    mkPoint 120 110 95;
    mkPoint 135 105 95;
    mkPoint 150 100 95;
    mkPoint 165 98 95;
    mkPoint 180 95 95 ].

(** An entry of [presetMeals]; its [carbs] and [gi] fields are prefixed
    here to keep them apart from those of [MealForm]. *)
Record PresetMeal := mkPreset {
  name : jsstring;
  presetCarbs : jsstring;
  presetGi : jsstring
}.

Definition presetMeals : list PresetMeal :=
  [ mkPreset (lit "Oatmeal with Banana") (lit "45") (lit "medium");
    mkPreset (lit "White Bread Toast (2 slices)") (lit "30") (lit "high");
    mkPreset (lit "Greek Yogurt with Berries") (lit "20") (lit "low");
    mkPreset (lit "Pasta with Tomato Sauce") (lit "60") (lit "medium") ].

Definition initialState : State :=
  mkState (mkForm [] [] [] []) false false.

Definition mount (now : Z) : World :=
  Loop.mkWorld initialState now [].

Definition setMealForm (f : MealForm -> MealForm) (s : State) : State :=
  mkState (f (mealForm s)) (isSimulating s) (showPrediction s).

Definition setIsSimulating (b : bool) (s : State) : State :=
  mkState (mealForm s) b (showPrediction s).

Definition setShowPrediction (b : bool) (s : State) : State :=
  mkState (mealForm s) (isSimulating s) b.

(** [keyof MealForm]. *)
Inductive Field := Description | Carbs | Gi | Insulin.

(** [{ ...prev, [field]: value }]. *)
Definition assign (field : Field) (value : jsstring) (prev : MealForm)
  : MealForm :=
  match field with
  | Description => mkForm value (carbs prev) (gi prev) (insulin prev)
  | Carbs => mkForm (description prev) value (gi prev) (insulin prev)
  | Gi => mkForm (description prev) (carbs prev) value (insulin prev)
  | Insulin => mkForm (description prev) (carbs prev) (gi prev) value
  end.

Definition handleInputChange (field : Field) (value : jsstring)
    (s : State) : State :=
  setMealForm (assign field value) s.

(** [onClick] of a preset button. *)
Definition applyPreset (meal : PresetMeal) (s : State) : State :=
  setMealForm
    (fun _ => mkForm (name meal) (presetCarbs meal) (presetGi meal) [])
    s.

(** The body of the [setTimeout] callback of [handleSimulate]. *)
Definition onSimulated (now : Z) (s : State) : State :=
  setShowPrediction true (setIsSimulating false s).

Definition handleSimulate (w : World) : World :=
  if isFalsy (description (mealForm (Loop.ui w)))
     || isFalsy (carbs (mealForm (Loop.ui w)))
  then w
  else Loop.setTimeout 2000 (Loop.setState (setIsSimulating true) w).

(** [disabled] of the Simulate Impact button. *)
Definition simulateDisabled (s : State) : bool :=
  isFalsy (description (mealForm s))
  || isFalsy (carbs (mealForm s))
  || isSimulating s.

Inductive Event :=
| Input (field : Field) (value : jsstring)  (* edit of a form control *)
| Preset (index : nat)                      (* click on a preset *)
| ClickSimulate                             (* click on Simulate Impact *)
| Elapse (ms : N).                          (* ms milliseconds pass *)

Definition step (w : World) (e : Event) : World :=
  match e with
  | Input field value => Loop.setState (handleInputChange field value) w
  | Preset index =>
      match nth_error presetMeals index with
      | Some meal => Loop.setState (applyPreset meal) w
      | None => w
      end
  | ClickSimulate =>
      if simulateDisabled (Loop.ui w) then w else handleSimulate w
  | Elapse ms => Loop.elapse onSimulated ms w
  end.

Definition run (w : World) (es : list Event) : World :=
  fold_left step es w.

Definition reachable (w : World) : Prop :=
  exists now es, w = run (mount now) es.

(** [simulate()]: the screen starts a simulation only from the button. *)
Definition simulate (w : World) : World := step w ClickSimulate.

(** What the chart of the prediction card is given, when the card is
    rendered at all. *)
Definition shownSeries (s : State) : option (list PredictionPoint) :=
  if showPrediction s then Some predictionData else None.

(** A simulation is running exactly when one timer is pending. *)
Definition settled (w : World) : Prop :=
  (isSimulating (Loop.ui w) = false /\ Loop.timers w = [])
  \/ (isSimulating (Loop.ui w) = true /\ exists t, Loop.timers w = [t]).

(** Sessions in which Simulate Impact is not clicked. *)
Definition noSimulate (e : Event) : bool :=
  match e with
  | ClickSimulate => false
  | _ => true
  end.

(** Every pending simulation is due in the future, at most 2000 ms
    ahead. *)
Definition wellTimed (w : World) : Prop :=
  Forall (fun t => Loop.clock w < t <= Loop.clock w + 2000) (Loop.timers w).

(** The time a session lets pass, in milliseconds. *)
Fixpoint elapsed (es : list Event) : Z :=
  match es with
  | [] => 0
  | Elapse ms :: es' => Z.of_N ms + elapsed es'
  | _ :: es' => elapsed es'
  end.

End MealSim.

(** ** Trends screen (TrendsSection) *)

Module Trends.

Record GlucosePoint := mkPoint {
  time : jsstring;
  glucose : Z;
  meal : option jsstring
}.

Definition glucoseData : list GlucosePoint :=
  [ mkPoint (lit "6:00") 95 None;
    mkPoint (lit "7:00") 110 (Some (lit "Breakfast"));
    mkPoint (lit "8:00") 145 None;
    mkPoint (lit "9:00") 130 None;
    mkPoint (lit "10:00") 115 None;
    mkPoint (lit "11:00") 105 None;
    mkPoint (lit "12:00") 98 (Some (lit "Lunch"));
    mkPoint (lit "13:00") 165 None;
    mkPoint (lit "14:00") 140 None;
    mkPoint (lit "15:00") 120 None;
    mkPoint (lit "16:00") 108 None;
    mkPoint (lit "17:00") 102 None;
    mkPoint (lit "18:00") 95 (Some (lit "Dinner"));
    mkPoint (lit "19:00") 175 None;
    mkPoint (lit "20:00") 155 None;
    mkPoint (lit "21:00") 125 None;
    mkPoint (lit "22:00") 110 None ].

Record DateRange := mkRange {
  start : jsstring;
  end_ : jsstring
}.

Record State := mkState {
  dateRange : DateRange;
  mealFilter : jsstring
}.

Definition initialState : State :=
  mkState (mkRange (lit "2025-01-20") (lit "2025-01-25")) (lit "all").

Definition setDateRange (f : DateRange -> DateRange) (s : State) : State :=
  mkState (f (dateRange s)) (mealFilter s).

Definition setMealFilter (v : jsstring) (s : State) : State :=
  mkState (dateRange s) v.

Inductive Event :=
| ChangeStart (value : jsstring)   (* onChange of the first date input *)
| ChangeEnd (value : jsstring)     (* onChange of the second date input *)
| SelectMeal (value : jsstring).   (* onValueChange of the meal select *)

Definition step (s : State) (e : Event) : State :=
  match e with
  | ChangeStart v => setDateRange (fun prev => mkRange v (end_ prev)) s
  | ChangeEnd v => setDateRange (fun prev => mkRange (start prev) v) s
  | SelectMeal v => setMealFilter v s
  end.

Definition run (s : State) (es : list Event) : State :=
  fold_left step es s.

(** What the rendered screen shows: the values of the three filter
    controls, the data handed to the line chart and the text of the
    three summary cards. *)
Record View := mkView {
  startInput : jsstring;
  endInput : jsstring;
  mealSelect : jsstring;
  chartData : list GlucosePoint;
  averageGlucose : jsstring;
  timeInRange : jsstring;
  glucoseVariability : jsstring
}.

Definition render (s : State) : View :=
  mkView (start (dateRange s)) (end_ (dateRange s)) (mealFilter s)
    glucoseData (lit "118 mg/dL") (lit "78%") (lit "Medium").

(** Colour of a reading in the chart tooltip. *)
Definition getGlucoseColor (value : Z) : jsstring :=
  if value <? 70 then lit "#f59e0b"
  else if 140 <? value then lit "#ef4444"
  else lit "#10b981".

(** The value an event writes to the start date, the end date or the
    meal filter, if any. *)
Definition writesStart (e : Event) : option jsstring :=
  match e with
  | ChangeStart v => Some v
  | _ => None
  end.

Definition writesEnd (e : Event) : option jsstring :=
  match e with
  | ChangeEnd v => Some v
  | _ => None
  end.

Definition writesMeal (e : Event) : option jsstring :=
  match e with
  | SelectMeal v => Some v
  | _ => None
  end.

(** The last value written by a session, or [init] when nothing was. *)
Fixpoint lastWrite (writes : Event -> option jsstring) (init : jsstring)
    (es : list Event) : jsstring :=
  match es with
  | [] => init
  | e :: es' =>
      lastWrite writes
        (match writes e with
         | Some v => v
         | None => init
         end)
        es'
  end.

End Trends.

(** ** Settings screen (SettingsSection) *)

Module Settings.

Record TargetRange := mkRange {
  min : jsstring;
  max : jsstring
}.

Record Settings := mkSettings {
  apiKey : jsstring;
  darkMode : bool;
  notifications : bool;
  glucoseUnit : jsstring;
  targetRange : TargetRange;
  emergencyContact : jsstring;
  dataRetention : jsstring
}.

(** The argument of a [toast] call. *)
Record Toast := mkToast {
  toastTitle : jsstring;
  toastDescription : jsstring
}.

(** The component state and, next to it, the [toast] calls made so far;
    the toast hook itself is outside the screen. *)
Record State := mkState {
  settings : Settings;
  toasts : list Toast
}.

Definition initialSettings : Settings :=
  mkSettings [] false true (lit "mg/dL") (mkRange (lit "70") (lit "140"))
    [] (lit "1year").

Definition initialState : State := mkState initialSettings [].

Definition setSettings (f : Settings -> Settings) (s : State) : State :=
  mkState (f (settings s)) (toasts s).

Definition savedToast : Toast :=
  mkToast (lit "Settings Saved")
    (lit "Your preferences have been updated successfully.").

Definition handleSave (s : State) : State :=
  mkState (settings s) (toasts s ++ [savedToast]).

(** A [keyof Settings] together with a value of that field's type. *)
Inductive Assignment :=
| ApiKey (value : jsstring)
| DarkMode (value : bool)
| Notifications (value : bool)
| GlucoseUnit (value : jsstring)
| Range (value : TargetRange)
| EmergencyContact (value : jsstring)
| DataRetention (value : jsstring).

(** [{ ...prev, [field]: value }]. *)
Definition assign (a : Assignment) (prev : Settings) : Settings :=
  match a with
  | ApiKey v =>
      mkSettings v (darkMode prev) (notifications prev) (glucoseUnit prev)
        (targetRange prev) (emergencyContact prev) (dataRetention prev)
  | DarkMode v =>
      mkSettings (apiKey prev) v (notifications prev) (glucoseUnit prev)
        (targetRange prev) (emergencyContact prev) (dataRetention prev)
  | Notifications v =>
      mkSettings (apiKey prev) (darkMode prev) v (glucoseUnit prev)
        (targetRange prev) (emergencyContact prev) (dataRetention prev)
  | GlucoseUnit v =>
      mkSettings (apiKey prev) (darkMode prev) (notifications prev) v
        (targetRange prev) (emergencyContact prev) (dataRetention prev)
  | Range v =>
      mkSettings (apiKey prev) (darkMode prev) (notifications prev)
        (glucoseUnit prev) v (emergencyContact prev) (dataRetention prev)
  | EmergencyContact v =>
      mkSettings (apiKey prev) (darkMode prev) (notifications prev)
        (glucoseUnit prev) (targetRange prev) v (dataRetention prev)
  | DataRetention v =>
      mkSettings (apiKey prev) (darkMode prev) (notifications prev)
        (glucoseUnit prev) (targetRange prev) (emergencyContact prev) v
  end.

Definition handleInputChange (a : Assignment) (s : State) : State :=
  setSettings (assign a) s.

Inductive Bound := Min | Max.

(** [{ ...prev.targetRange, [field]: value }]. *)
Definition assignBound (field : Bound) (value : jsstring)
    (prev : TargetRange) : TargetRange :=
  match field with
  | Min => mkRange value (max prev)
  | Max => mkRange (min prev) value
  end.

Definition handleRangeChange (field : Bound) (value : jsstring)
    (s : State) : State :=
  setSettings
    (fun prev =>
       mkSettings (apiKey prev) (darkMode prev) (notifications prev)
         (glucoseUnit prev) (assignBound field value (targetRange prev))
         (emergencyContact prev) (dataRetention prev))
    s.

(** The controls of the screen.  The Export Data and Clear All Data
    buttons have no handler. *)
Inductive Event :=
| ChangeApiKey (value : jsstring)
| ToggleDarkMode (checked : bool)
| SelectGlucoseUnit (value : jsstring)
| ChangeBound (field : Bound) (value : jsstring)
| ToggleNotifications (checked : bool)
| ChangeEmergencyContact (value : jsstring)
| SelectDataRetention (value : jsstring)
| ClickExportData
| ClickClearAllData
| ClickSave.

Definition step (s : State) (e : Event) : State :=
  match e with
  | ChangeApiKey v => handleInputChange (ApiKey v) s
  | ToggleDarkMode b => handleInputChange (DarkMode b) s
  | SelectGlucoseUnit v => handleInputChange (GlucoseUnit v) s
  | ChangeBound field v => handleRangeChange field v s
  | ToggleNotifications b => handleInputChange (Notifications b) s
  | ChangeEmergencyContact v => handleInputChange (EmergencyContact v) s
  | SelectDataRetention v => handleInputChange (DataRetention v) s
  | ClickExportData => s
  | ClickClearAllData => s
  | ClickSave => handleSave s
  end.

Definition run (s : State) (es : list Event) : State :=
  fold_left step es s.

(** The events that edit a control, as opposed to button clicks. *)
Definition isEdit (e : Event) : bool :=
  match e with
  | ClickExportData | ClickClearAllData | ClickSave => false
  | _ => true
  end.

Definition isSave (e : Event) : bool :=
  match e with
  | ClickSave => true
  | _ => false
  end.

Definition isBoundChange (e : Event) : bool :=
  match e with
  | ChangeBound _ _ => true
  | _ => false
  end.

End Settings.

(** ** Scenarios

  Concrete sessions used below.  The clock readings are milliseconds
  since the epoch, as [Date.now()] gives them. *)

Module Scenario.

Definition mountTime : Z := 1700000000000.

(** A question has been sent from the button and its reply is awaited;
    meanwhile the user has typed the next one. *)
Definition awaiting : Chat.World :=
  Chat.run (Chat.mount mountTime)
    [Chat.Change (lit "a"); Chat.ClickSend; Chat.Change (lit "hi")].

(** A question is sent, the reply arrives after one second, and the next
    question is sent one millisecond later. *)
Definition quickFollowUp : list Chat.Event :=
  [Chat.Change (lit "a"); Chat.ClickSend; Chat.Elapse 1000;
   Chat.Change (lit "b"); Chat.Elapse 1; Chat.ClickSend].

(** Two questions sent with Enter half a second apart; the first reply
    has arrived, the second has not. *)
Definition overlapped : Chat.World :=
  Chat.run (Chat.mount mountTime)
    [Chat.Change (lit "a"); Chat.KeyPress (lit "Enter"); Chat.Elapse 500;
     Chat.Change (lit "b"); Chat.KeyPress (lit "Enter"); Chat.Elapse 500].

(** The form holds a meal and an insulin dose. *)
Definition dosed : MealSim.World :=
  MealSim.run (MealSim.mount mountTime)
    [MealSim.Input MealSim.Description (lit "Rice bowl");
     MealSim.Input MealSim.Carbs (lit "50");
     MealSim.Input MealSim.Insulin (lit "4")].

End Scenario.

(** * Properties *)

(** ** Strings *)

Lemma strictEq_refl (a : jsstring) : strictEq a a = true.
Proof.
  induction a as [|x a IH]; simpl; [reflexivity|].
  now rewrite N.eqb_refl, IH.
Qed.

Lemma strictEq_true_iff (a b : jsstring) : strictEq a b = true <-> a = b.
Proof.
  split; [|intros ->; apply strictEq_refl].
  revert b; induction a as [|x a IH]; intros [|y b]; simpl;
    try discriminate; [reflexivity|].
  rewrite andb_true_iff, N.eqb_eq.
  intros [-> H]; f_equal; auto.
Qed.

Lemma trimStart_nil_iff (s : jsstring) :
  trimStart s = [] <-> forallb isWhiteSpace s = true.
Proof.
  induction s as [|c s IH]; simpl; [tauto|].
  destruct (isWhiteSpace c); simpl; [exact IH|].
  split; discriminate.
Qed.

(** A string is empty after trimming exactly when all of its code units
    are white space. *)
Lemma trim_blank_iff (s : jsstring) :
  isFalsy (trim s) = true <-> forallb isWhiteSpace s = true.
Proof.
  unfold trim, trimEnd.
  assert (E : forall l : jsstring, isFalsy l = true <-> l = []).
  { intros [|? ?]; simpl; split; congruence. }
  rewrite E; split.
  - intros H.
    assert (H' : trimStart s = []).
    { destruct (trimStart s) as [|c r] eqn:Es; [reflexivity|].
      exfalso.
      assert (Hr : rev (rev (trimStart (rev (c :: r)))) = rev []) by now rewrite H.
      rewrite rev_involutive in Hr; simpl in Hr.
      apply trimStart_nil_iff in Hr.
      rewrite forallb_app in Hr; simpl in Hr.
      apply andb_true_iff in Hr; destruct Hr as [_ Hc].
      rewrite andb_true_r in Hc.
      clear H; induction s as [|d s IH]; simpl in Es; [discriminate|].
      destruct (isWhiteSpace d) eqn:Ed; [auto|].
      injection Es as -> _; congruence. }
    now apply trimStart_nil_iff.
  - intros H.
    apply trimStart_nil_iff in H; rewrite H; reflexivity.
Qed.

(** ** Navigation *)

(** C9: [isActive] holds exactly when the current path and the entry's
    path are the same string; a longer path with the entry's path as a
    prefix does not match. *)
Theorem isActive_exact :
  (forall currentPath itemPath : jsstring,
      Nav.isActive currentPath itemPath = true <-> currentPath = itemPath)
  /\ Nav.isActive (lit "/trends") (lit "/trends") = true
  /\ Nav.isActive (lit "/trends") (lit "/trends/x") = false.
Proof.
  split; [|split; reflexivity].
  intros; unfold Nav.isActive; apply strictEq_true_iff.
Qed.

(** ** Chat *)

Lemma handleSendMessage_blank (w : Chat.World) :
  isFalsy (trim (Chat.inputMessage (Loop.ui w))) = true ->
  Chat.handleSendMessage w = w.
Proof. unfold Chat.handleSendMessage; now intros ->. Qed.

Lemma handleSendMessage_sends (w : Chat.World) :
  isFalsy (trim (Chat.inputMessage (Loop.ui w))) = false ->
  Chat.handleSendMessage w =
  Loop.mkWorld
    (Chat.mkState
       (Chat.messages (Loop.ui w)
          ++ [Chat.userMessage (Loop.clock w) (Loop.ui w)])
       [] true)
    (Loop.clock w)
    (Loop.timers w ++ [Loop.clock w + 1000]).
Proof. unfold Chat.handleSendMessage; now intros ->. Qed.

Lemma send_enter (w : Chat.World) :
  Chat.send Chat.EnterKey w = Chat.handleSendMessage w.
Proof. reflexivity. Qed.

Lemma send_button (w : Chat.World) :
  Chat.send Chat.Button w =
  if Chat.sendDisabled (Loop.ui w) then w else Chat.handleSendMessage w.
Proof. reflexivity. Qed.

(** The send button is inert while a reply is awaited. *)
Lemma button_inert_while_loading (w : Chat.World) :
  Chat.isLoading (Loop.ui w) = true -> Chat.send Chat.Button w = w.
Proof.
  intros H; rewrite send_button; unfold Chat.sendDisabled.
  now rewrite H, orb_true_r.
Qed.

(** The Enter key sends whatever the loading flag is. *)
Lemma enter_ignores_loading (w : Chat.World) :
  isFalsy (trim (Chat.inputMessage (Loop.ui w))) = false ->
  Chat.messages (Loop.ui (Chat.send Chat.EnterKey w)) =
    Chat.messages (Loop.ui w)
      ++ [Chat.userMessage (Loop.clock w) (Loop.ui w)]
  /\ Loop.timers (Chat.send Chat.EnterKey w) =
       Loop.timers w ++ [Loop.clock w + 1000].
Proof.
  intros H; rewrite send_enter, handleSendMessage_sends by exact H.
  split; reflexivity.
Qed.

(** C1, at a state that awaits a reply with the draft "hi": the button
    leaves the state as it is, but the Enter key appends the draft as a
    user message, clears the draft and starts a second reply timer. *)
Theorem enter_sends_while_awaiting :
  let w := Scenario.awaiting in
  Chat.isLoading (Loop.ui w) = true
  /\ Chat.inputMessage (Loop.ui w) = lit "hi"
  /\ Loop.timers w = [Scenario.mountTime + 1000]
  /\ Chat.send Chat.Button w = w
  /\ Chat.messages (Loop.ui (Chat.send Chat.EnterKey w)) =
       Chat.messages (Loop.ui w)
         ++ [Chat.mkMessage (toString Scenario.mountTime) Chat.user
               (lit "hi") Scenario.mountTime]
  /\ Chat.inputMessage (Loop.ui (Chat.send Chat.EnterKey w)) = []
  /\ Loop.timers (Chat.send Chat.EnterKey w) =
       [Scenario.mountTime + 1000; Scenario.mountTime + 1000].
Proof. vm_compute; repeat split; reflexivity. Qed.

(** C8: sending a draft that is empty after trimming changes nothing,
    from the button or with Enter: messages, draft, loading flag, clock
    and pending timers are all as before. *)
Theorem blank_send_noop (t : Chat.Trigger) (w : Chat.World) :
  isFalsy (trim (Chat.inputMessage (Loop.ui w))) = true ->
  Chat.send t w = w.
Proof.
  intros H; destruct t.
  - rewrite send_button.
    destruct (Chat.sendDisabled (Loop.ui w)); [reflexivity|].
    now apply handleSendMessage_blank.
  - rewrite send_enter; now apply handleSendMessage_blank.
Qed.

Lemma blank_send_noop_witness :
  let w := Chat.step (Chat.mount Scenario.mountTime)
             (Chat.Change (lit "   ")) in
  isFalsy (trim (Chat.inputMessage (Loop.ui w))) = true
  /\ Chat.send Chat.Button w = w
  /\ Chat.send Chat.EnterKey w = w.
Proof.
  intros w.
  assert (H : isFalsy (trim (Chat.inputMessage (Loop.ui w))) = true)
    by reflexivity.
  split; [exact H|].
  split; apply blank_send_noop; exact H.
Defined.

Lemma not_disabled_when_idle (w : Chat.World) :
  Chat.isLoading (Loop.ui w) = false ->
  isFalsy (trim (Chat.inputMessage (Loop.ui w))) = false ->
  Chat.sendDisabled (Loop.ui w) = false.
Proof. unfold Chat.sendDisabled; now intros -> ->. Qed.

(** With the loading flag down and a draft to send, both triggers run
    the handler. *)
Lemma send_idle (t : Chat.Trigger) (w : Chat.World) :
  Chat.isLoading (Loop.ui w) = false ->
  isFalsy (trim (Chat.inputMessage (Loop.ui w))) = false ->
  Chat.send t w = Chat.handleSendMessage w.
Proof.
  intros Hl Hd; destruct t; [|apply send_enter].
  now rewrite send_button, not_disabled_when_idle.
Qed.

(** With no reply in flight: from a state that awaits no reply (loading
    flag down, no reply timer pending) and whose draft [text] is not empty after trimming, a
    send at once appends exactly the user message with content [text],
    clears the draft and raises the loading flag; once 1000 ms or more
    have passed, exactly the agent's message has been appended after it
    and the loading flag is down again. *)
Lemma send_then_reply (t : Chat.Trigger) (w : Chat.World) (ms : N) :
  Chat.isLoading (Loop.ui w) = false ->
  Loop.timers w = [] ->
  isFalsy (trim (Chat.inputMessage (Loop.ui w))) = false ->
  (1000 <= ms)%N ->
  let text := Chat.inputMessage (Loop.ui w) in
  let sent := Chat.send t w in
  let replied := Chat.step sent (Chat.Elapse ms) in
  let userMsg :=
    Chat.mkMessage (toString (Loop.clock w)) Chat.user text (Loop.clock w) in
  let agentMsg :=
    Chat.mkMessage (toString (Loop.clock w + 1000 + 1)) Chat.agent
      Chat.demoResponse (Loop.clock w + 1000) in
  (Chat.messages (Loop.ui sent) = Chat.messages (Loop.ui w) ++ [userMsg]
   /\ Chat.inputMessage (Loop.ui sent) = []
   /\ Chat.isLoading (Loop.ui sent) = true
   /\ Loop.timers sent = [Loop.clock w + 1000])
  /\ (Chat.messages (Loop.ui replied) =
        Chat.messages (Loop.ui w) ++ [userMsg; agentMsg]
      /\ Chat.inputMessage (Loop.ui replied) = []
      /\ Chat.isLoading (Loop.ui replied) = false
      /\ Loop.timers replied = []).
Proof.
  intros Hl Ht Hd Hms text sent replied userMsg agentMsg.
  subst sent replied.
  rewrite send_idle, handleSendMessage_sends by assumption.
  rewrite Ht; simpl.
  split; [repeat split|].
  unfold Loop.elapse; simpl.
  replace (Loop.clock w + 1000 <=? Loop.clock w + Z.of_N ms) with true
    by (symmetry; apply Z.leb_le; lia).
  simpl; rewrite <- app_assoc; repeat split.
Qed.

Lemma send_then_reply_witness :
  let w := Chat.step (Chat.mount Scenario.mountTime)
             (Chat.Change (lit "Why did I spike?")) in
  let replied :=
    Chat.step (Chat.send Chat.Button w) (Chat.Elapse 1000) in
  List.length (Chat.messages (Loop.ui replied)) = 3%nat
  /\ map Chat.type (Chat.messages (Loop.ui replied)) =
       [Chat.agent; Chat.user; Chat.agent]
  /\ Chat.isLoading (Loop.ui replied) = false.
Proof.
  intros w replied.
  destruct (send_then_reply Chat.Button w 1000) as [_ (Hm & _ & Hl & _)];
    [reflexivity | reflexivity | reflexivity | lia |].
  subst replied; rewrite Hm, Hl.
  repeat split.
Defined.

(** Until the 1000 ms have passed the reply is still awaited. *)
Lemma reply_not_early (t : Chat.Trigger) (w : Chat.World) (ms : N) :
  Chat.isLoading (Loop.ui w) = false ->
  Loop.timers w = [] ->
  isFalsy (trim (Chat.inputMessage (Loop.ui w))) = false ->
  (ms < 1000)%N ->
  Loop.ui (Chat.step (Chat.send t w) (Chat.Elapse ms)) =
  Loop.ui (Chat.send t w).
Proof.
  intros Hl Ht Hd Hms.
  rewrite send_idle, handleSendMessage_sends by assumption.
  rewrite Ht; simpl; unfold Loop.elapse; simpl.
  replace (Loop.clock w + 1000 <=? Loop.clock w + Z.of_N ms) with false
    by (symmetry; apply Z.leb_gt; lia).
  reflexivity.
Qed.

(** C10: on mount the conversation holds exactly the agent's greeting,
    which is not empty, the draft is empty and no reply is awaited; the
    first send of a draft that is not blank leaves two messages. *)
Theorem initial_conversation
    (now : Z) (t : Chat.Trigger) (text : jsstring) :
  isFalsy (trim text) = false ->
  let w := Chat.mount now in
  Chat.messages (Loop.ui w) =
    [Chat.mkMessage (lit "1") Chat.agent Chat.greeting now]
  /\ Chat.greeting <> []
  /\ Chat.inputMessage (Loop.ui w) = []
  /\ Chat.isLoading (Loop.ui w) = false
  /\ Loop.timers w = []
  /\ List.length
       (Chat.messages
          (Loop.ui (Chat.send t (Chat.step w (Chat.Change text))))) = 2%nat.
Proof.
  intros Hd w.
  repeat (split; [first [reflexivity | discriminate]|]).
  rewrite send_idle, handleSendMessage_sends by (simpl; auto).
  reflexivity.
Qed.

Lemma initial_conversation_witness :
  isFalsy (trim (lit "Why did I spike?")) = false
  /\ List.length
       (Chat.messages
          (Loop.ui
             (Chat.send Chat.EnterKey
                (Chat.step (Chat.mount Scenario.mountTime)
                   (Chat.Change (lit "Why did I spike?")))))) = 2%nat.
Proof.
  split; [reflexivity|].
  apply (initial_conversation Scenario.mountTime Chat.EnterKey
           (lit "Why did I spike?")).
  reflexivity.
Defined.

(** C6, at the session in which the follow-up question is sent one
    millisecond after the first reply has arrived: the state is reachable
    and the reply and the follow-up carry the same id. *)
Theorem ids_collide :
  let w := Chat.run (Chat.mount Scenario.mountTime) Scenario.quickFollowUp in
  Chat.reachable w
  /\ Chat.ids w =
       [lit "1"; lit "1700000000000"; lit "1700000001001";
        lit "1700000001001"]
  /\ ~ NoDup (Chat.ids w).
Proof.
  intros w.
  assert (E : Chat.ids w =
              [lit "1"; lit "1700000000000"; lit "1700000001001";
               lit "1700000001001"]) by (vm_compute; reflexivity).
  split; [exists Scenario.mountTime, Scenario.quickFollowUp; reflexivity|].
  split; [exact E|].
  rewrite E; intros H.
  apply NoDup_cons_iff in H as [_ H].
  apply NoDup_cons_iff in H as [_ H].
  apply NoDup_cons_iff in H as [H _].
  apply H; left; reflexivity.
Qed.

(** *** Sessions that send from the button only *)

Lemma step_settled (w : Chat.World) (e : Chat.Event) :
  Chat.noKeyPress e = true -> Chat.settled w -> Chat.settled (Chat.step w e).
Proof.
  intros Hk Hw; destruct e as [v|a|key| |ms]; simpl in *;
    try discriminate; try exact Hw.
  - destruct (Chat.sendDisabled (Loop.ui w)) eqn:Hd; [exact Hw|].
    unfold Chat.sendDisabled in Hd; apply orb_false_iff in Hd as [Hb Hl].
    rewrite handleSendMessage_sends by exact Hb.
    destruct Hw as [[_ Ht]|[Hl' _]]; [|congruence].
    right; simpl; rewrite Ht; split; [reflexivity|].
    now exists (Loop.clock w + 1000).
  - unfold Loop.elapse.
    destruct Hw as [[Hl Ht]|[Hl [t Ht]]]; rewrite Ht; simpl.
    + left; split; [exact Hl | reflexivity].
    + destruct (t <=? Loop.clock w + Z.of_N ms); simpl.
      * left; split; reflexivity.
      * right; split; [exact Hl | now exists t].
Qed.

Lemma run_settled (es : list Chat.Event) (w : Chat.World) :
  forallb Chat.noKeyPress es = true ->
  Chat.settled w -> Chat.settled (Chat.run w es).
Proof.
  revert w; induction es as [|e es IH]; intros w Hk Hw; [exact Hw|].
  simpl in Hk; apply andb_true_iff in Hk as [He Hes].
  apply IH; [exact Hes|]; now apply step_settled.
Qed.

(** As long as messages are sent from the button only, a lowered loading
    flag means that no reply timer is pending. *)
Lemma idle_means_quiet (now : Z) (es : list Chat.Event) :
  forallb Chat.noKeyPress es = true ->
  Chat.isLoading (Loop.ui (Chat.run (Chat.mount now) es)) = false ->
  Loop.timers (Chat.run (Chat.mount now) es) = [].
Proof.
  intros Hk Hl.
  destruct (run_settled es (Chat.mount now) Hk) as [[_ Ht]|[Hl' _]];
    [left; split; reflexivity | exact Ht | congruence].
Qed.

(** Sends made with Enter while a reply is awaited break that: here the
    loading flag is down while a reply is still on its way, and the next
    question is followed by two replies within the second. *)
Lemma overlapped_replies :
  let w := Scenario.overlapped in
  let after :=
    Chat.run w [Chat.Change (lit "c"); Chat.ClickSend; Chat.Elapse 1000] in
  Chat.isLoading (Loop.ui w) = false
  /\ Loop.timers w = [Scenario.mountTime + 1500]
  /\ map Chat.type (Chat.messages (Loop.ui after)) =
       [Chat.agent; Chat.user; Chat.user; Chat.agent;
        Chat.user; Chat.agent; Chat.agent].
Proof. vm_compute; repeat split; reflexivity. Qed.

(** C2, at a reachable state whose loading flag is down while a reply is
    still on its way (two questions were sent with Enter half a second
    apart and only the first reply has arrived), with the draft "c": the
    send appends the user's message, clears the draft and raises the
    flag, but once 1000 ms have passed two agent messages, not one, have
    been appended after it. *)
Theorem send_followed_by_two_replies :
  let w := Chat.step Scenario.overlapped (Chat.Change (lit "c")) in
  let sent := Chat.send Chat.Button w in
  let replied := Chat.step sent (Chat.Elapse 1000) in
  Chat.reachable w
  /\ Chat.isLoading (Loop.ui w) = false
  /\ Chat.inputMessage (Loop.ui w) = lit "c"
  /\ isFalsy (trim (Chat.inputMessage (Loop.ui w))) = false
  /\ Chat.messages (Loop.ui sent) =
       Chat.messages (Loop.ui w)
         ++ [Chat.mkMessage (lit "1700000001000") Chat.user (lit "c")
               (Scenario.mountTime + 1000)]
  /\ Chat.inputMessage (Loop.ui sent) = []
  /\ Chat.isLoading (Loop.ui sent) = true
  /\ Chat.messages (Loop.ui replied) =
       Chat.messages (Loop.ui sent)
         ++ [Chat.mkMessage (lit "1700000001501") Chat.agent
               Chat.demoResponse (Scenario.mountTime + 1500);
             Chat.mkMessage (lit "1700000002001") Chat.agent
               Chat.demoResponse (Scenario.mountTime + 2000)]
  /\ Chat.isLoading (Loop.ui replied) = false.
Proof.
  intros w sent replied; split.
  - exists Scenario.mountTime.
    exists [Chat.Change (lit "a"); Chat.KeyPress (lit "Enter");
            Chat.Elapse 500; Chat.Change (lit "b");
            Chat.KeyPress (lit "Enter"); Chat.Elapse 500;
            Chat.Change (lit "c")].
    reflexivity.
  - vm_compute; repeat split; reflexivity.
Qed.

(** ** Meal simulator *)

Lemma isFalsy_true_iff (s : jsstring) : isFalsy s = true <-> s = [].
Proof. destruct s; simpl; split; congruence. Qed.

Lemma isFalsy_false_iff (s : jsstring) : isFalsy s = false <-> s <> [].
Proof. destruct s; simpl; split; congruence. Qed.

Lemma simulateDisabled_true_iff (s : MealSim.State) :
  MealSim.simulateDisabled s = true <->
  MealSim.description (MealSim.mealForm s) = []
  \/ MealSim.carbs (MealSim.mealForm s) = []
  \/ MealSim.isSimulating s = true.
Proof.
  unfold MealSim.simulateDisabled.
  rewrite !orb_true_iff, !isFalsy_true_iff; tauto.
Qed.

Lemma simulateDisabled_false_iff (s : MealSim.State) :
  MealSim.simulateDisabled s = false <->
  MealSim.description (MealSim.mealForm s) <> []
  /\ MealSim.carbs (MealSim.mealForm s) <> []
  /\ MealSim.isSimulating s = false.
Proof.
  unfold MealSim.simulateDisabled.
  rewrite !orb_false_iff, !isFalsy_false_iff; tauto.
Qed.

Lemma handleSimulate_enabled (w : MealSim.World) :
  MealSim.simulateDisabled (Loop.ui w) = false ->
  MealSim.handleSimulate w =
  Loop.mkWorld
    (MealSim.mkState (MealSim.mealForm (Loop.ui w)) true
       (MealSim.showPrediction (Loop.ui w)))
    (Loop.clock w)
    (Loop.timers w ++ [Loop.clock w + 2000]).
Proof.
  unfold MealSim.simulateDisabled; intros H.
  apply orb_false_iff in H as [H _].
  unfold MealSim.handleSimulate; now rewrite H.
Qed.

Lemma simulate_enabled (w : MealSim.World) :
  MealSim.simulateDisabled (Loop.ui w) = false ->
  MealSim.simulate w =
  Loop.mkWorld
    (MealSim.mkState (MealSim.mealForm (Loop.ui w)) true
       (MealSim.showPrediction (Loop.ui w)))
    (Loop.clock w)
    (Loop.timers w ++ [Loop.clock w + 2000]).
Proof.
  intros H; unfold MealSim.simulate; simpl; rewrite H.
  now apply handleSimulate_enabled.
Qed.

(** The handler itself does not look at the pending flag; the button's
    [disabled] is what keeps a second simulation from starting. *)
Lemma handleSimulate_unguarded (w : MealSim.World) :
  MealSim.description (MealSim.mealForm (Loop.ui w)) <> [] ->
  MealSim.carbs (MealSim.mealForm (Loop.ui w)) <> [] ->
  Loop.timers (MealSim.handleSimulate w) =
  Loop.timers w ++ [Loop.clock w + 2000].
Proof.
  intros Hd Hc; unfold MealSim.handleSimulate.
  apply isFalsy_false_iff in Hd, Hc; now rewrite Hd, Hc.
Qed.

(** C3: [simulate()] leaves the whole state as it is when the description
    is empty, or the carbohydrates are empty, or a simulation is pending;
    otherwise it raises the pending flag, keeps the form and the shown
    prediction, and registers one timer due in 2000 ms. *)
Theorem simulate_guard (w : MealSim.World) :
  let form := MealSim.mealForm (Loop.ui w) in
  (MealSim.description form = [] \/ MealSim.carbs form = []
   \/ MealSim.isSimulating (Loop.ui w) = true ->
   MealSim.simulate w = w)
  /\ (MealSim.description form <> [] ->
      MealSim.carbs form <> [] ->
      MealSim.isSimulating (Loop.ui w) = false ->
      MealSim.simulate w =
      Loop.mkWorld
        (MealSim.mkState form true (MealSim.showPrediction (Loop.ui w)))
        (Loop.clock w)
        (Loop.timers w ++ [Loop.clock w + 2000])).
Proof.
  intros form; split.
  - intros H; apply simulateDisabled_true_iff in H.
    unfold MealSim.simulate; simpl; now rewrite H.
  - intros Hd Hc Hs; apply simulate_enabled.
    apply simulateDisabled_false_iff; auto.
Qed.

Lemma simulate_guard_witness :
  MealSim.simulate (MealSim.mount Scenario.mountTime) =
    MealSim.mount Scenario.mountTime
  /\ MealSim.isSimulating (Loop.ui (MealSim.simulate Scenario.dosed)) = true
  /\ Loop.timers (MealSim.simulate Scenario.dosed) =
       [Scenario.mountTime + 2000].
Proof.
  split.
  - apply (simulate_guard (MealSim.mount Scenario.mountTime)).
    left; reflexivity.
  - destruct (simulate_guard Scenario.dosed) as [_ H].
    rewrite H; [split; reflexivity | discriminate | discriminate
               | reflexivity].
Defined.

(** C4 as stated fails: with an insulin dose of 4 in the form, applying
    the first preset does not leave the dose as it was. *)
Lemma preset_keeps_insulin_fails :
  ~ (forall (p : MealSim.PresetMeal) (s : MealSim.State),
        In p MealSim.presetMeals ->
        let form := MealSim.mealForm (MealSim.applyPreset p s) in
        MealSim.description form = MealSim.name p
        /\ MealSim.carbs form = MealSim.presetCarbs p
        /\ MealSim.gi form = MealSim.presetGi p
        /\ MealSim.insulin form = MealSim.insulin (MealSim.mealForm s)).
Proof.
  intros H.
  specialize
    (H (MealSim.mkPreset (lit "Oatmeal with Banana") (lit "45")
          (lit "medium"))
       (Loop.ui Scenario.dosed) (or_introl eq_refl)).
  destruct H as (_ & _ & _ & H).
  vm_compute in H; discriminate.
Qed.

(** C4, amended: a click on a preset overwrites the description, the
    carbohydrates and the glycemic index with the preset's and resets the
    insulin units to the empty string; nothing else changes. *)
Theorem preset_overwrites_form
    (index : nat) (p : MealSim.PresetMeal) (w : MealSim.World) :
  nth_error MealSim.presetMeals index = Some p ->
  MealSim.step w (MealSim.Preset index) =
  Loop.mkWorld
    (MealSim.mkState
       (MealSim.mkForm (MealSim.name p) (MealSim.presetCarbs p)
          (MealSim.presetGi p) [])
       (MealSim.isSimulating (Loop.ui w))
       (MealSim.showPrediction (Loop.ui w)))
    (Loop.clock w)
    (Loop.timers w).
Proof. intros H; simpl; rewrite H; reflexivity. Qed.

Lemma preset_overwrites_form_witness :
  MealSim.mealForm
    (Loop.ui (MealSim.step Scenario.dosed (MealSim.Preset 1))) =
  MealSim.mkForm (lit "White Bread Toast (2 slices)") (lit "30")
    (lit "high") [].
Proof.
  rewrite (preset_overwrites_form 1
             (MealSim.mkPreset (lit "White Bread Toast (2 slices)")
                (lit "30") (lit "high"))
             Scenario.dosed eq_refl).
  reflexivity.
Defined.

Lemma meal_step_settled (w : MealSim.World) (e : MealSim.Event) :
  MealSim.settled w -> MealSim.settled (MealSim.step w e).
Proof.
  intros Hw; destruct e as [field value|index| |ms]; simpl.
  - exact Hw.
  - destruct (nth_error MealSim.presetMeals index); exact Hw.
  - destruct (MealSim.simulateDisabled (Loop.ui w)) eqn:Hd; [exact Hw|].
    rewrite handleSimulate_enabled by exact Hd.
    apply simulateDisabled_false_iff in Hd as (_ & _ & Hs).
    destruct Hw as [[_ Ht]|[Hs' _]]; [|congruence].
    right; simpl; rewrite Ht; split; [reflexivity|].
    now exists (Loop.clock w + 2000).
  - unfold Loop.elapse.
    destruct Hw as [[Hs Ht]|[Hs [t Ht]]]; rewrite Ht; simpl.
    + left; split; [exact Hs | reflexivity].
    + destruct (t <=? Loop.clock w + Z.of_N ms); simpl.
      * left; split; reflexivity.
      * right; split; [exact Hs | now exists t].
Qed.

Lemma meal_run_settled (es : list MealSim.Event) (w : MealSim.World) :
  MealSim.settled w -> MealSim.settled (MealSim.run w es).
Proof.
  revert w; induction es as [|e es IH]; intros w Hw; [exact Hw|].
  apply IH; now apply meal_step_settled.
Qed.

(** In every state the screen can reach, a simulation is pending exactly
    when its one timer is. *)
Lemma reachable_settled (w : MealSim.World) :
  MealSim.reachable w -> MealSim.settled w.
Proof.
  intros (now & es & ->); apply meal_run_settled.
  left; split; reflexivity.
Qed.

Lemma predictionData_offsets :
  map MealSim.time MealSim.predictionData =
  map (fun k => 15 * Z.of_nat k) (seq 0 13).
Proof. reflexivity. Qed.

(** C5: in every reachable state in which the Simulate Impact button is
    enabled, once 2000 ms or more have passed after [simulate()] the
    pending flag is down and the prediction card shows the fixed series:
    13 points at minutes 0, 15, ..., 180, strictly increasing, each with
    a predicted and a baseline value. *)
Theorem simulation_resolves (w : MealSim.World) (ms : N) :
  MealSim.reachable w ->
  MealSim.simulateDisabled (Loop.ui w) = false ->
  (2000 <= ms)%N ->
  let done := MealSim.step (MealSim.simulate w) (MealSim.Elapse ms) in
  MealSim.isSimulating (Loop.ui (MealSim.simulate w)) = true
  /\ MealSim.isSimulating (Loop.ui done) = false
  /\ Loop.timers done = []
  /\ MealSim.mealForm (Loop.ui done) = MealSim.mealForm (Loop.ui w)
  /\ MealSim.shownSeries (Loop.ui done) = Some MealSim.predictionData
  /\ List.length MealSim.predictionData = 13%nat
  /\ map MealSim.time MealSim.predictionData =
       [0; 15; 30; 45; 60; 75; 90; 105; 120; 135; 150; 165; 180]
  /\ StronglySorted Z.lt (map MealSim.time MealSim.predictionData)
  /\ map (fun p => (MealSim.predicted_glucose p, MealSim.baseline p))
         MealSim.predictionData =
       [(95, 95); (98, 95); (115, 95); (135, 95); (155, 95); (145, 95);
        (130, 95); (120, 95); (110, 95); (105, 95); (100, 95); (98, 95);
        (95, 95)].
Proof.
  intros Hr Hd Hms done; subst done.
  rewrite simulate_enabled by exact Hd.
  apply simulateDisabled_false_iff in Hd as (_ & _ & Hs).
  destruct (reachable_settled w Hr) as [[_ Ht]|[Hs' _]]; [|congruence].
  rewrite Ht; simpl; unfold Loop.elapse; simpl.
  replace (Loop.clock w + 2000 <=? Loop.clock w + Z.of_N ms) with true
    by (symmetry; apply Z.leb_le; lia).
  simpl; repeat (split; [reflexivity|]).
  split; [|reflexivity].
  repeat constructor.
Qed.

Lemma simulation_resolves_witness :
  let done :=
    MealSim.step (MealSim.simulate Scenario.dosed) (MealSim.Elapse 2000) in
  MealSim.reachable Scenario.dosed
  /\ MealSim.isSimulating (Loop.ui done) = false
  /\ MealSim.shownSeries (Loop.ui done) = Some MealSim.predictionData.
Proof.
  intros done.
  assert (Hr : MealSim.reachable Scenario.dosed).
  { exists Scenario.mountTime.
    exists [MealSim.Input MealSim.Description (lit "Rice bowl");
            MealSim.Input MealSim.Carbs (lit "50");
            MealSim.Input MealSim.Insulin (lit "4")].
    reflexivity. }
  split; [exact Hr|].
  destruct (simulation_resolves Scenario.dosed 2000 Hr)
    as (_ & H1 & _ & _ & H2 & _); [reflexivity | lia |].
  split; assumption.
Defined.

(** Before the 2000 ms have passed the simulation is still pending and
    nothing new is shown. *)
Lemma simulation_not_early (w : MealSim.World) (ms : N) :
  MealSim.reachable w ->
  MealSim.simulateDisabled (Loop.ui w) = false ->
  (ms < 2000)%N ->
  Loop.ui (MealSim.step (MealSim.simulate w) (MealSim.Elapse ms)) =
  Loop.ui (MealSim.simulate w).
Proof.
  intros Hr Hd Hms.
  rewrite simulate_enabled by exact Hd.
  apply simulateDisabled_false_iff in Hd as (_ & _ & Hs).
  destruct (reachable_settled w Hr) as [[_ Ht]|[Hs' _]]; [|congruence].
  rewrite Ht; simpl; unfold Loop.elapse; simpl.
  replace (Loop.clock w + 2000 <=? Loop.clock w + Z.of_N ms) with false
    by (symmetry; apply Z.leb_gt; lia).
  reflexivity.
Qed.

(** ** Trends *)

(** C7: what the Trends screen charts and what its three summary cards
    say is the same in any two states, so the same whatever date range
    and meal filter are stored; the chart always gets the fixed sample
    data, and no filter event changes any of it. *)
Theorem trends_ignore_filters :
  (forall s1 s2 : Trends.State,
      Trends.chartData (Trends.render s1) =
        Trends.chartData (Trends.render s2)
      /\ Trends.averageGlucose (Trends.render s1) =
           Trends.averageGlucose (Trends.render s2)
      /\ Trends.timeInRange (Trends.render s1) =
           Trends.timeInRange (Trends.render s2)
      /\ Trends.glucoseVariability (Trends.render s1) =
           Trends.glucoseVariability (Trends.render s2))
  /\ (forall s : Trends.State,
        Trends.chartData (Trends.render s) = Trends.glucoseData)
  /\ (forall (s : Trends.State) (es : list Trends.Event),
        let v := Trends.render s in
        let v' := Trends.render (Trends.run s es) in
        Trends.chartData v' = Trends.chartData v
        /\ Trends.averageGlucose v' = Trends.averageGlucose v
        /\ Trends.timeInRange v' = Trends.timeInRange v
        /\ Trends.glucoseVariability v' = Trends.glucoseVariability v).
Proof. repeat split. Qed.

(** The filter controls themselves do follow the events. *)
Lemma trends_filters_stored (s : Trends.State) (a b m : jsstring) :
  let v :=
    Trends.render
      (Trends.run s
         [Trends.ChangeStart a; Trends.ChangeEnd b; Trends.SelectMeal m]) in
  Trends.startInput v = a /\ Trends.endInput v = b
  /\ Trends.mealSelect v = m.
Proof. repeat split. Qed.

(** * Further properties *)

(** ** Timers *)

Lemma StronglySorted_snoc (l : list Z) (a : Z) :
  StronglySorted Z.le l -> Forall (fun x => x <= a) l ->
  StronglySorted Z.le (l ++ [a]).
Proof.
  induction l as [|x l IH]; simpl; intros Hs Hf.
  - repeat constructor.
  - inversion Hs as [|? ? Hs' Hx]; subst.
    inversion Hf as [|? ? Hxa Hf']; subst.
    constructor; [now apply IH|].
    apply Forall_app; split; [exact Hx|]; now repeat constructor.
Qed.

Section LoopFacts.

Context {State : Type} (fire : Z -> State -> State).

(** The timers left pending are those due after the deadline, in their
    order. *)
Lemma runDue_rest (d : Z) (ts : list Z) (s : State) :
  snd (Loop.runDue fire d ts s) = filter (fun t => negb (t <=? d)) ts.
Proof.
  revert s; induction ts as [|t ts IH]; intros s; simpl; [reflexivity|].
  destruct (t <=? d); simpl; [apply IH|].
  specialize (IH s); destruct (Loop.runDue fire d ts s); simpl in *.
  now rewrite IH.
Qed.

Lemma runDue_none (d : Z) (ts : list Z) (s : State) :
  Forall (fun t => d < t) ts -> Loop.runDue fire d ts s = (s, ts).
Proof.
  induction 1 as [|t ts Ht _ IH]; simpl; [reflexivity|].
  replace (t <=? d) with false by (symmetry; apply Z.leb_gt; lia).
  now rewrite IH.
Qed.


(** With the timers in due order, running them up to a deadline is the
    same as running them up to an earlier one first. *)
Lemma runDue_split (d1 d2 : Z) (ts : list Z) (s : State) :
  d1 <= d2 -> StronglySorted Z.le ts ->
  Loop.runDue fire d2 ts s =
  Loop.runDue fire d2 (snd (Loop.runDue fire d1 ts s))
    (fst (Loop.runDue fire d1 ts s)).
Proof.
  intros Hd Hs; revert s; induction Hs as [|t ts Hs IH Ht]; intros s;
    [reflexivity|].
  destruct (Z.leb_spec t d1) as [H1|H1].
  - simpl; replace (t <=? d1) with true by (symmetry; apply Z.leb_le; lia).
    replace (t <=? d2) with true by (symmetry; apply Z.leb_le; lia).
    apply IH.
  - rewrite (runDue_none d1 (t :: ts)); [reflexivity|].
    constructor; [exact H1|].
    eapply Forall_impl; [|exact Ht]; simpl; intros; lia.
Qed.

Lemma elapse_elapse (a b : N) (w : Loop.World State) :
  StronglySorted Z.le (Loop.timers w) ->
  Loop.elapse fire b (Loop.elapse fire a w) = Loop.elapse fire (a + b) w.
Proof.
  intros Hs; unfold Loop.elapse.
  rewrite (runDue_split (Loop.clock w + Z.of_N a)
             (Loop.clock w + Z.of_N (a + b)) _ _ ltac:(lia) Hs).
  destruct (Loop.runDue fire (Loop.clock w + Z.of_N a) (Loop.timers w)
              (Loop.ui w)) as [s1 r1]; simpl.
  replace (Loop.clock w + Z.of_N a + Z.of_N b)
    with (Loop.clock w + Z.of_N (a + b)) by lia.
  reflexivity.
Qed.

End LoopFacts.

(** ** Chat: what replies and sends do to the conversation *)

Lemma countBy_app (a : Chat.MessageType) (l l' : list Chat.ChatMessage) :
  Chat.countBy a (l ++ l') = (Chat.countBy a l + Chat.countBy a l')%nat.
Proof. unfold Chat.countBy; now rewrite filter_app, length_app. Qed.

Lemma countBy_canned (l : list Chat.ChatMessage) :
  Forall Chat.cannedReply l ->
  Chat.countBy Chat.agent l = List.length l
  /\ Chat.countBy Chat.user l = 0%nat.
Proof.
  unfold Chat.countBy.
  induction 1 as [|m l [Hm _] _ [IHa IHu]]; simpl; [split; reflexivity|].
  unfold Chat.isBy; rewrite Hm; simpl.
  split; [now f_equal | exact IHu].
Qed.

(** What the replies that fall due do: the draft is kept, canned agent
    messages are appended, one for each timer that fired, and either
    nothing fired or the loading flag is down. *)
Lemma replies_due (d : Z) (ts : list Z) (s : Chat.State) :
  let r := Loop.runDue Chat.onReply d ts s in
  Chat.inputMessage (fst r) = Chat.inputMessage s
  /\ (exists suffix,
        Chat.messages (fst r) = Chat.messages s ++ suffix
        /\ Forall Chat.cannedReply suffix
        /\ (List.length suffix + List.length (snd r))%nat = List.length ts)
  /\ ((fst r = s /\ snd r = ts) \/ Chat.isLoading (fst r) = false).
Proof.
  revert s; induction ts as [|t ts IH]; intros s; simpl.
  - split; [reflexivity|]; split; [|left; split; reflexivity].
    exists []; rewrite app_nil_r; repeat split; constructor.
  - destruct (t <=? d).
    + destruct (IH (Chat.onReply t s)) as (Hi & (suf & Hm & Hc & Hl) & Hf).
      split; [exact Hi|]; split.
      * exists (Chat.agentResponse t :: suf).
        rewrite Hm; simpl; rewrite <- app_assoc; simpl.
        split; [reflexivity|]; split; [|now rewrite Hl].
        constructor; [split; reflexivity | exact Hc].
      * right; destruct Hf as [[-> _]|Hf]; [reflexivity | exact Hf].
    + destruct (IH s) as (Hi & (suf & Hm & Hc & Hl) & Hf).
      destruct (Loop.runDue Chat.onReply d ts s) as [s' rest]; simpl in *.
      split; [exact Hi|]; split.
      * exists suf; repeat split; [exact Hm | exact Hc | lia].
      * destruct Hf as [[-> ->]|Hf]; [left; split; reflexivity | now right].
Qed.

Lemma elapse_ui (ms : N) (w : Chat.World) :
  Loop.ui (Chat.step w (Chat.Elapse ms)) =
    fst (Loop.runDue Chat.onReply (Loop.clock w + Z.of_N ms)
           (Loop.timers w) (Loop.ui w))
  /\ Loop.timers (Chat.step w (Chat.Elapse ms)) =
       snd (Loop.runDue Chat.onReply (Loop.clock w + Z.of_N ms)
              (Loop.timers w) (Loop.ui w))
  /\ Loop.clock (Chat.step w (Chat.Elapse ms)) =
       Loop.clock w + Z.of_N ms.
Proof.
  simpl; unfold Loop.elapse.
  destruct (Loop.runDue Chat.onReply (Loop.clock w + Z.of_N ms)
              (Loop.timers w) (Loop.ui w)); repeat split.
Qed.

Lemma handleSendMessage_cases (w : Chat.World) :
  Chat.handleSendMessage w = w
  \/ Chat.handleSendMessage w =
       Loop.mkWorld
         (Chat.mkState
            (Chat.messages (Loop.ui w)
               ++ [Chat.userMessage (Loop.clock w) (Loop.ui w)])
            [] true)
         (Loop.clock w)
         (Loop.timers w ++ [Loop.clock w + 1000]).
Proof.
  destruct (isFalsy (trim (Chat.inputMessage (Loop.ui w)))) eqn:H.
  - left; now apply handleSendMessage_blank.
  - right; now apply handleSendMessage_sends.
Qed.

Lemma step_shape (w : Chat.World) (e : Chat.Event) :
  Chat.StepShape w (Chat.step w e).
Proof.
  assert (Same : Chat.StepShape w w).
  { apply (Chat.Typed w w (Chat.inputMessage (Loop.ui w))).
    destruct w as [[] ? ?]; reflexivity. }
  assert (Send : Chat.StepShape w (Chat.handleSendMessage w)).
  { destruct (handleSendMessage_cases w) as [->| ->];
      [exact Same | now apply Chat.Sent]. }
  destruct e as [v|a|key| |ms]; simpl.
  - now apply (Chat.Typed w _ v).
  - now apply (Chat.Typed w _ (Chat.quickPrompt a)).
  - destruct (strictEq key (lit "Enter")); assumption.
  - destruct (Chat.sendDisabled (Loop.ui w)); assumption.
  - now apply (Chat.Waited w _ ms).
Qed.

Lemma chat_run_snoc (w : Chat.World) (es : list Chat.Event)
    (e : Chat.Event) :
  Chat.run w (es ++ [e]) = Chat.step (Chat.run w es) e.
Proof. unfold Chat.run; now rewrite fold_left_app. Qed.


(** Induction over the states a session can reach. *)
Lemma chat_reachable_ind (P : Chat.World -> Prop) :
  (forall now, P (Chat.mount now)) ->
  (forall w w', P w -> Chat.StepShape w w' -> P w') ->
  forall w, Chat.reachable w -> P w.
Proof.
  intros Hmount Hstep w (now & es & ->).
  induction es as [|e es IH] using rev_ind; [apply Hmount|].
  rewrite chat_run_snoc; eapply Hstep; [exact IH | apply step_shape].
Qed.

Lemma shape_appends (w w' : Chat.World) :
  Chat.StepShape w w' ->
  exists suffix,
    Chat.messages (Loop.ui w') = Chat.messages (Loop.ui w) ++ suffix.
Proof.
  intros [v -> | -> | ms ->].
  - exists []; simpl; now rewrite app_nil_r.
  - now exists [Chat.userMessage (Loop.clock w) (Loop.ui w)].
  - destruct (elapse_ui ms w) as (-> & _ & _).
    destruct (replies_due (Loop.clock w + Z.of_N ms) (Loop.timers w)
                (Loop.ui w)) as (_ & (suf & Hm & _) & _).
    now exists suf.
Qed.

(** The conversation is append-only: whatever the user does and however
    much time passes, the messages already shown stay, in their order, at
    the head of the conversation. *)
Theorem messages_append_only (w : Chat.World) (es : list Chat.Event) :
  exists suffix,
    Chat.messages (Loop.ui (Chat.run w es)) =
    Chat.messages (Loop.ui w) ++ suffix.
Proof.
  revert w; induction es as [|e es IH]; intros w.
  - exists []; simpl; now rewrite app_nil_r.
  - change (Chat.run w (e :: es)) with (Chat.run (Chat.step w e) es).
    destruct (IH (Chat.step w e)) as [suf Hs].
    destruct (shape_appends w _ (step_shape w e)) as [suf' Hs'].
    exists (suf' ++ suf).
    now rewrite Hs, Hs', app_assoc.
Qed.

(** The passing of time never touches the draft: whatever replies
    arrive, what the user has typed so far stays in the input. *)
Theorem reply_keeps_draft (w : Chat.World) (ms : N) :
  Chat.inputMessage (Loop.ui (Chat.step w (Chat.Elapse ms))) =
  Chat.inputMessage (Loop.ui w).
Proof.
  destruct (elapse_ui ms w) as (-> & _ & _).
  apply (replies_due (Loop.clock w + Z.of_N ms) (Loop.timers w) (Loop.ui w)).
Qed.

Lemma replies_balance_inv (w : Chat.World) :
  Chat.reachable w ->
  (Chat.countBy Chat.agent (Chat.messages (Loop.ui w))
   + List.length (Loop.timers w)
   = 1 + Chat.countBy Chat.user (Chat.messages (Loop.ui w)))%nat.
Proof.
  revert w; apply chat_reachable_ind; [reflexivity|].
  intros w w' IH [v -> | -> | ms ->]; simpl.
  - exact IH.
  - rewrite !countBy_app, length_app; simpl.
    change (Chat.countBy Chat.agent
              [Chat.userMessage (Loop.clock w) (Loop.ui w)]) with 0%nat.
    change (Chat.countBy Chat.user
              [Chat.userMessage (Loop.clock w) (Loop.ui w)]) with 1%nat.
    lia.
  - fold (Chat.step w (Chat.Elapse ms)).
    destruct (elapse_ui ms w) as (-> & -> & _).
    destruct (replies_due (Loop.clock w + Z.of_N ms) (Loop.timers w)
                (Loop.ui w)) as (_ & (suf & -> & Hc & Hl) & _).
    rewrite !countBy_app.
    destruct (countBy_canned suf Hc) as [-> ->]; lia.
Qed.

(** In every reachable state the agent's messages (the greeting and the
    replies) together with the replies still pending are one more than
    the user's messages: each question gets exactly one reply, and no
    reply comes without a question. *)
Theorem replies_balance (w : Chat.World) :
  Chat.reachable w ->
  (Chat.countBy Chat.agent (Chat.messages (Loop.ui w))
   + List.length (Loop.timers w)
   = 1 + Chat.countBy Chat.user (Chat.messages (Loop.ui w)))%nat.
Proof. exact (replies_balance_inv w). Qed.

Lemma replies_balance_witness :
  (Chat.countBy Chat.agent (Chat.messages (Loop.ui Scenario.overlapped))
   + List.length (Loop.timers Scenario.overlapped)
   = 1 + Chat.countBy Chat.user
           (Chat.messages (Loop.ui Scenario.overlapped)))%nat.
Proof.
  apply replies_balance.
  exists Scenario.mountTime.
  exists [Chat.Change (lit "a"); Chat.KeyPress (lit "Enter");
          Chat.Elapse 500; Chat.Change (lit "b");
          Chat.KeyPress (lit "Enter"); Chat.Elapse 500].
  reflexivity.
Defined.

Lemma loading_pending_inv (w : Chat.World) :
  Chat.reachable w ->
  Chat.isLoading (Loop.ui w) = true -> Loop.timers w <> [].
Proof.
  revert w.
  apply (chat_reachable_ind
           (fun w => Chat.isLoading (Loop.ui w) = true ->
                     Loop.timers w <> [])); [discriminate|].
  intros w w' IH [v -> | -> | ms ->]; simpl.
  - exact IH.
  - intros _; destruct (Loop.timers w); discriminate.
  - fold (Chat.step w (Chat.Elapse ms)).
    destruct (elapse_ui ms w) as (-> & -> & _).
    destruct (replies_due (Loop.clock w + Z.of_N ms) (Loop.timers w)
                (Loop.ui w)) as (_ & _ & [[-> ->] | Hf]);
      [exact IH | congruence].
Qed.

(** In every reachable state, a raised loading flag means that a reply
    is still pending: the "thinking" indicator is never shown with
    nothing on its way. *)
Theorem loading_means_pending (w : Chat.World) :
  Chat.reachable w ->
  Chat.isLoading (Loop.ui w) = true -> Loop.timers w <> [].
Proof. exact (loading_pending_inv w). Qed.

Lemma loading_means_pending_witness :
  Loop.timers Scenario.awaiting <> [].
Proof.
  apply loading_means_pending; [|reflexivity].
  exists Scenario.mountTime.
  exists [Chat.Change (lit "a"); Chat.ClickSend; Chat.Change (lit "hi")].
  reflexivity.
Defined.

(** ** Chat: timing *)

Lemma sorted_filter (f : Z -> bool) (l : list Z) :
  StronglySorted Z.le l -> StronglySorted Z.le (filter f l).
Proof.
  induction 1 as [|x l _ IH Hx]; simpl; [constructor|].
  destruct (f x); [|exact IH].
  constructor; [exact IH|].
  apply Forall_forall; intros y Hy; apply filter_In in Hy as [Hy _].
  revert y Hy; now apply Forall_forall.
Qed.

(** Replies that fall due are stamped in due order. *)
Lemma replies_due_stamps (c d : Z) (ts : list Z) (s : Chat.State) :
  c <= d ->
  Forall (fun t => c <= t) ts ->
  StronglySorted Z.le ts ->
  Forall (fun m => Chat.timestamp m <= c) (Chat.messages s) ->
  StronglySorted Z.le (map Chat.timestamp (Chat.messages s)) ->
  let s' := fst (Loop.runDue Chat.onReply d ts s) in
  Forall (fun m => Chat.timestamp m <= d) (Chat.messages s')
  /\ StronglySorted Z.le (map Chat.timestamp (Chat.messages s')).
Proof.
  intros Hcd Hts Hsorted; revert c s Hcd Hts.
  induction Hsorted as [|t ts Hs IH Ht]; intros c s Hcd Hts Hm Hms; simpl.
  - split; [|exact Hms].
    eapply Forall_impl; [|exact Hm]; simpl; intros; lia.
  - inversion Hts as [|? ? Hct Hts']; subst.
    destruct (Z.leb_spec t d) as [Htd|Htd].
    + apply (IH t); [exact Htd | exact Ht | |]; simpl.
      * apply Forall_app; split; [|now repeat constructor].
        eapply Forall_impl; [|exact Hm]; simpl; intros; lia.
      * rewrite map_app; apply StronglySorted_snoc; [exact Hms|].
        apply Forall_forall; intros x Hx; apply in_map_iff in Hx.
        destruct Hx as (m & <- & Hin).
        rewrite Forall_forall in Hm; specialize (Hm m Hin); simpl; lia.
    + specialize (IH c s Hcd Hts' Hm Hms).
      destruct (Loop.runDue Chat.onReply d ts s); exact IH.
Qed.

Lemma wellTimed_inv (w : Chat.World) :
  Chat.reachable w -> Chat.wellTimed w.
Proof.
  revert w; apply chat_reachable_ind.
  - intros now; unfold Chat.wellTimed; simpl.
    split; [constructor|]; split; [constructor|]; split.
    + constructor; [simpl; lia | constructor].
    + constructor; constructor.
  - intros w w' (Ht & Hs & Hm & Hms) [v -> | -> | ms ->].
    + repeat split; assumption.
    + repeat split; simpl.
      * apply Forall_app; split; [exact Ht|].
        repeat constructor; lia.
      * apply StronglySorted_snoc; [exact Hs|].
        eapply Forall_impl; [|exact Ht]; simpl; intros; lia.
      * apply Forall_app; split; [exact Hm|].
        repeat constructor; simpl; lia.
      * rewrite map_app; apply StronglySorted_snoc; [exact Hms|].
        apply Forall_forall; intros x Hx; apply in_map_iff in Hx.
        destruct Hx as (m & <- & Hin).
        rewrite Forall_forall in Hm; exact (Hm m Hin).
    + unfold Chat.wellTimed.
      destruct (elapse_ui ms w) as (-> & -> & ->).
      rewrite runDue_rest.
      split; [|split; [now apply sorted_filter|]].
      * apply Forall_forall; intros t Hin.
        apply filter_In in Hin as [Hin Hlate].
        rewrite Forall_forall in Ht; specialize (Ht t Hin).
        apply negb_true_iff, Z.leb_gt in Hlate; lia.
      * apply (replies_due_stamps (Loop.clock w)); try assumption; [lia|].
        eapply Forall_impl; [|exact Ht]; simpl; intros; lia.
Qed.

(** In every reachable state: each pending reply is due within the next
    1000 ms, the pending replies are in due order, no message is stamped
    in the future, and the time stamps never decrease down the
    conversation. *)
Theorem reachable_wellTimed (w : Chat.World) :
  Chat.reachable w -> Chat.wellTimed w.
Proof. exact (wellTimed_inv w). Qed.

Lemma reachable_wellTimed_witness :
  Chat.wellTimed Scenario.overlapped.
Proof.
  apply reachable_wellTimed.
  exists Scenario.mountTime.
  exists [Chat.Change (lit "a"); Chat.KeyPress (lit "Enter");
          Chat.Elapse 500; Chat.Change (lit "b");
          Chat.KeyPress (lit "Enter"); Chat.Elapse 500].
  reflexivity.
Defined.



(** In every reachable state, letting [a] and then [b] milliseconds pass
    leaves the screen exactly as letting [a + b] pass at once. *)
Theorem elapse_composes (w : Chat.World) (a b : N) :
  Chat.reachable w ->
  Chat.step (Chat.step w (Chat.Elapse a)) (Chat.Elapse b) =
  Chat.step w (Chat.Elapse (a + b)).
Proof.
  intros Hr; simpl; apply elapse_elapse.
  apply (wellTimed_inv w Hr).
Qed.

Lemma elapse_composes_witness :
  Chat.step (Chat.step Scenario.awaiting (Chat.Elapse 400))
    (Chat.Elapse 600) =
  Chat.step Scenario.awaiting (Chat.Elapse 1000).
Proof.
  apply (elapse_composes Scenario.awaiting 400 600).
  exists Scenario.mountTime.
  exists [Chat.Change (lit "a"); Chat.ClickSend; Chat.Change (lit "hi")].
  reflexivity.
Defined.

(** ** Chat: quick actions and button-only sessions *)

(** A quick action only fills the draft, in every state, a reply
    awaited or not: it posts nothing, starts no timer and leaves the
    loading flag and the clock alone.  Sent next from a state that awaits
    no reply, it posts exactly the action's prompt as the user's
    message. *)
Theorem quick_action_then_send
    (a : Chat.QuickAction) (t : Chat.Trigger) (w : Chat.World) :
  let w1 := Chat.step w (Chat.Quick a) in
  (Chat.messages (Loop.ui w1) = Chat.messages (Loop.ui w)
   /\ Chat.isLoading (Loop.ui w1) = Chat.isLoading (Loop.ui w)
   /\ Loop.timers w1 = Loop.timers w
   /\ Loop.clock w1 = Loop.clock w
   /\ Chat.inputMessage (Loop.ui w1) = Chat.quickPrompt a
   /\ isFalsy (trim (Chat.inputMessage (Loop.ui w1))) = false)
  /\ (Chat.isLoading (Loop.ui w) = false ->
      Chat.messages (Loop.ui (Chat.send t w1)) =
        Chat.messages (Loop.ui w)
          ++ [Chat.mkMessage (toString (Loop.clock w)) Chat.user
                (Chat.quickPrompt a) (Loop.clock w)]
      /\ Chat.inputMessage (Loop.ui (Chat.send t w1)) = []
      /\ Chat.isLoading (Loop.ui (Chat.send t w1)) = true
      /\ Loop.timers (Chat.send t w1) =
           Loop.timers w ++ [Loop.clock w + 1000]).
Proof.
  intros w1.
  assert (Hd : isFalsy (trim (Chat.inputMessage (Loop.ui w1))) = false)
    by (destruct a; reflexivity).
  split; [repeat split; exact Hd|].
  intros Hl.
  rewrite send_idle, handleSendMessage_sends by (assumption || exact Hl).
  repeat split.
Qed.

Lemma quick_action_then_send_witness :
  Chat.messages
    (Loop.ui (Chat.step Scenario.awaiting (Chat.Quick Chat.SimulateMeal))) =
    Chat.messages (Loop.ui Scenario.awaiting)
  /\ map Chat.content
       (Chat.messages
          (Loop.ui
             (Chat.send Chat.Button
                (Chat.step (Chat.mount Scenario.mountTime)
                   (Chat.Quick Chat.WeeklyTrends))))) =
     [Chat.greeting; lit "Show me my glucose trends from this week"].
Proof.
  split.
  - apply (quick_action_then_send Chat.SimulateMeal Chat.Button
             Scenario.awaiting).
  - destruct (quick_action_then_send Chat.WeeklyTrends Chat.Button
                (Chat.mount Scenario.mountTime)) as [_ H].
    destruct (H eq_refl) as (Hm & _).
    rewrite Hm; reflexivity.
Defined.

(** In a session that sends from the button only, at most one reply is
    ever pending and the loading flag is up exactly while it is. *)
Theorem button_sessions_settled (now : Z) (es : list Chat.Event) :
  forallb Chat.noKeyPress es = true ->
  Chat.settled (Chat.run (Chat.mount now) es).
Proof.
  intros Hk; apply run_settled; [exact Hk|].
  left; split; reflexivity.
Qed.

Lemma button_sessions_settled_witness :
  Chat.settled Scenario.awaiting.
Proof.
  apply (button_sessions_settled Scenario.mountTime
           [Chat.Change (lit "a"); Chat.ClickSend; Chat.Change (lit "hi")]).
  reflexivity.
Defined.

(** ** Meal simulator: further properties *)

Lemma meal_run_snoc (w : MealSim.World) (es : list MealSim.Event)
    (e : MealSim.Event) :
  MealSim.run w (es ++ [e]) = MealSim.step (MealSim.run w es) e.
Proof. unfold MealSim.run; now rewrite fold_left_app. Qed.

Lemma meal_reachable_step (w : MealSim.World) (e : MealSim.Event) :
  MealSim.reachable w -> MealSim.reachable (MealSim.step w e).
Proof.
  intros (now & es & ->); exists now, (es ++ [e]).
  now rewrite meal_run_snoc.
Qed.

Lemma meal_elapse_ui (ms : N) (w : MealSim.World) :
  Loop.ui (MealSim.step w (MealSim.Elapse ms)) =
    fst (Loop.runDue MealSim.onSimulated (Loop.clock w + Z.of_N ms)
           (Loop.timers w) (Loop.ui w))
  /\ Loop.timers (MealSim.step w (MealSim.Elapse ms)) =
       snd (Loop.runDue MealSim.onSimulated (Loop.clock w + Z.of_N ms)
              (Loop.timers w) (Loop.ui w))
  /\ Loop.clock (MealSim.step w (MealSim.Elapse ms)) =
       Loop.clock w + Z.of_N ms.
Proof.
  simpl; unfold Loop.elapse.
  destruct (Loop.runDue MealSim.onSimulated (Loop.clock w + Z.of_N ms)
              (Loop.timers w) (Loop.ui w)); repeat split.
Qed.

(** A finished simulation keeps the form and never hides the
    prediction. *)
Lemma simulations_due (d : Z) (ts : list Z) (s : MealSim.State) :
  let s' := fst (Loop.runDue MealSim.onSimulated d ts s) in
  MealSim.mealForm s' = MealSim.mealForm s
  /\ (MealSim.showPrediction s = true -> MealSim.showPrediction s' = true).
Proof.
  revert s; induction ts as [|t ts IH]; intros s; simpl; [auto|].
  destruct (t <=? d).
  - destruct (IH (MealSim.onSimulated t s)) as [Hf Hp].
    split; [exact Hf | intros _; now apply Hp].
  - specialize (IH s).
    destruct (Loop.runDue MealSim.onSimulated d ts s); exact IH.
Qed.

Lemma meal_step_keeps_shown (w : MealSim.World) (e : MealSim.Event) :
  MealSim.showPrediction (Loop.ui w) = true ->
  MealSim.showPrediction (Loop.ui (MealSim.step w e)) = true.
Proof.
  intros H; destruct e as [field value|index| |ms].
  - exact H.
  - simpl; destruct (nth_error MealSim.presetMeals index); exact H.
  - simpl; destruct (MealSim.simulateDisabled (Loop.ui w)) eqn:Hd;
      [exact H|].
    now rewrite handleSimulate_enabled.
  - destruct (meal_elapse_ui ms w) as (-> & _ & _).
    now apply simulations_due.
Qed.

(** Once the prediction card is shown it stays shown, with the same
    series, whatever is edited, simulated or awaited afterwards. *)
Theorem prediction_stays (w : MealSim.World) (es : list MealSim.Event) :
  MealSim.showPrediction (Loop.ui w) = true ->
  MealSim.shownSeries (Loop.ui (MealSim.run w es)) =
  Some MealSim.predictionData.
Proof.
  intros H.
  assert (H' : MealSim.showPrediction (Loop.ui (MealSim.run w es)) = true).
  { revert w H; induction es as [|e es IH]; intros w H; [exact H|].
    apply (IH (MealSim.step w e)); now apply meal_step_keeps_shown. }
  unfold MealSim.shownSeries; now rewrite H'.
Qed.

Lemma prediction_stays_witness :
  let shown :=
    MealSim.run Scenario.dosed [MealSim.ClickSimulate; MealSim.Elapse 2000] in
  MealSim.shownSeries
    (Loop.ui
       (MealSim.run shown
          [MealSim.Preset 2; MealSim.Input MealSim.Carbs [];
           MealSim.ClickSimulate; MealSim.Elapse 5000])) =
  Some MealSim.predictionData.
Proof.
  intros shown; apply (prediction_stays shown); reflexivity.
Defined.

Lemma idle_step_without_click (w : MealSim.World) (e : MealSim.Event) :
  MealSim.noSimulate e = true ->
  MealSim.showPrediction (Loop.ui w) = false
  /\ MealSim.isSimulating (Loop.ui w) = false
  /\ Loop.timers w = [] ->
  MealSim.showPrediction (Loop.ui (MealSim.step w e)) = false
  /\ MealSim.isSimulating (Loop.ui (MealSim.step w e)) = false
  /\ Loop.timers (MealSim.step w e) = [].
Proof.
  intros He (Hp & Hs & Ht); destruct e as [field value|index| |ms].
  - repeat split; assumption.
  - simpl; destruct (nth_error MealSim.presetMeals index);
      repeat split; assumption.
  - discriminate.
  - simpl; unfold Loop.elapse; rewrite Ht; simpl.
    repeat split; assumption.
Qed.

(** Without a click on Simulate Impact nothing is ever simulated or
    predicted: however the form is edited and however long one waits,
    the card stays hidden and no timer is started. *)
Theorem no_prediction_without_click (now : Z) (es : list MealSim.Event) :
  forallb MealSim.noSimulate es = true ->
  let w := MealSim.run (MealSim.mount now) es in
  MealSim.showPrediction (Loop.ui w) = false
  /\ MealSim.isSimulating (Loop.ui w) = false
  /\ Loop.timers w = [].
Proof.
  intros Hes w; subst w.
  assert (H0 : MealSim.showPrediction (Loop.ui (MealSim.mount now)) = false
               /\ MealSim.isSimulating (Loop.ui (MealSim.mount now)) = false
               /\ Loop.timers (MealSim.mount now) = [])
    by (repeat split).
  revert H0; generalize (MealSim.mount now).
  induction es as [|e es IH]; intros w0 H0; [exact H0|].
  simpl in Hes; apply andb_true_iff in Hes as [He Hes].
  apply (IH Hes (MealSim.step w0 e)).
  now apply idle_step_without_click.
Qed.

Lemma no_prediction_without_click_witness :
  MealSim.showPrediction
    (Loop.ui
       (MealSim.run (MealSim.mount Scenario.mountTime)
          [MealSim.Preset 0; MealSim.Elapse 60000])) = false.
Proof.
  apply (no_prediction_without_click Scenario.mountTime
           [MealSim.Preset 0; MealSim.Elapse 60000]).
  reflexivity.
Defined.

(** In every state the simulator can reach, at most one simulation is in
    flight, and the pending flag is up exactly while it is. *)
Theorem one_simulation_in_flight (w : MealSim.World) :
  MealSim.reachable w ->
  (List.length (Loop.timers w) <= 1)%nat
  /\ (MealSim.isSimulating (Loop.ui w) = true <-> Loop.timers w <> []).
Proof.
  intros Hr.
  destruct (reachable_settled w Hr) as [[Hs Ht]|[Hs [t Ht]]];
    rewrite Hs, Ht; simpl; split; try lia; split; congruence.
Qed.

Lemma one_simulation_in_flight_witness :
  (List.length (Loop.timers (MealSim.simulate Scenario.dosed)) <= 1)%nat.
Proof.
  apply one_simulation_in_flight.
  exists Scenario.mountTime.
  exists [MealSim.Input MealSim.Description (lit "Rice bowl");
          MealSim.Input MealSim.Carbs (lit "50");
          MealSim.Input MealSim.Insulin (lit "4");
          MealSim.ClickSimulate].
  reflexivity.
Defined.

Lemma meal_reachable_wellTimed (w : MealSim.World) :
  MealSim.reachable w -> MealSim.wellTimed w.
Proof.
  intros (now & es & ->).
  induction es as [|e es IH] using rev_ind; [constructor|].
  rewrite meal_run_snoc.
  set (w := MealSim.run (MealSim.mount now) es) in *.
  unfold MealSim.wellTimed in *.
  destruct e as [field value|index| |ms].
  - exact IH.
  - simpl; destruct (nth_error MealSim.presetMeals index); exact IH.
  - simpl; destruct (MealSim.simulateDisabled (Loop.ui w)) eqn:Hd;
      [exact IH|].
    rewrite handleSimulate_enabled by exact Hd; simpl.
    apply Forall_app; split; [exact IH|].
    repeat constructor; lia.
  - destruct (meal_elapse_ui ms w) as (_ & -> & ->).
    rewrite runDue_rest.
    apply Forall_forall; intros t Hin.
    apply filter_In in Hin as [Hin Hlate].
    rewrite Forall_forall in IH; specialize (IH t Hin).
    apply negb_true_iff, Z.leb_gt in Hlate; lia.
Qed.

Lemma elapsed_nonneg (es : list MealSim.Event) : 0 <= MealSim.elapsed es.
Proof.
  induction es as [|e es IH]; simpl; [lia|]; destruct e; lia.
Qed.

Lemma meal_step_clock (w : MealSim.World) (e : MealSim.Event) :
  Loop.clock (MealSim.step w e) = Loop.clock w + MealSim.elapsed [e].
Proof.
  destruct e as [field value|index| |ms].
  - simpl; lia.
  - simpl; destruct (nth_error MealSim.presetMeals index); simpl; lia.
  - simpl; destruct (MealSim.simulateDisabled (Loop.ui w)) eqn:Hd;
      [lia|].
    rewrite handleSimulate_enabled by exact Hd; simpl; lia.
  - destruct (meal_elapse_ui ms w) as (_ & _ & ->); simpl; lia.
Qed.

Lemma meal_run_clock (es : list MealSim.Event) (w : MealSim.World) :
  Loop.clock (MealSim.run w es) = Loop.clock w + MealSim.elapsed es.
Proof.
  revert w; induction es as [|e es IH]; intros w; [simpl; lia|].
  change (MealSim.run w (e :: es))
    with (MealSim.run (MealSim.step w e) es).
  rewrite IH, meal_step_clock; destruct e; simpl; lia.
Qed.

Lemma meal_run_keeps_shown (es : list MealSim.Event) (w : MealSim.World) :
  MealSim.showPrediction (Loop.ui w) = true ->
  MealSim.showPrediction (Loop.ui (MealSim.run w es)) = true.
Proof.
  revert w; induction es as [|e es IH]; intros w H; [exact H|].
  apply (IH (MealSim.step w e)); now apply meal_step_keeps_shown.
Qed.

(** With nothing pending and no click on Simulate Impact, nothing becomes
    pending. *)
Lemma idle_run_without_click (es : list MealSim.Event)
    (w : MealSim.World) :
  forallb MealSim.noSimulate es = true ->
  MealSim.isSimulating (Loop.ui w) = false ->
  Loop.timers w = [] ->
  MealSim.isSimulating (Loop.ui (MealSim.run w es)) = false
  /\ Loop.timers (MealSim.run w es) = [].
Proof.
  revert w; induction es as [|e es IH]; intros w Hes Hs Ht; [auto|].
  simpl in Hes; apply andb_true_iff in Hes as [He Hes].
  change (MealSim.run w (e :: es))
    with (MealSim.run (MealSim.step w e) es).
  destruct e as [field value|index| |ms].
  - apply (IH _ Hes); assumption.
  - apply (IH _ Hes); simpl;
      destruct (nth_error MealSim.presetMeals index); assumption.
  - discriminate.
  - apply (IH _ Hes); simpl; unfold Loop.elapse; rewrite Ht; simpl;
      [exact Hs | reflexivity].
Qed.

(** A pending simulation under edits, presets and waiting: it ends, and
    shows the prediction, exactly when the clock reaches its due time. *)
Lemma pending_run_without_click (es : list MealSim.Event)
    (w : MealSim.World) (t : Z) :
  forallb MealSim.noSimulate es = true ->
  MealSim.isSimulating (Loop.ui w) = true ->
  Loop.timers w = [t] ->
  Loop.clock w < t ->
  let w' := MealSim.run w es in
  (t <= Loop.clock w + MealSim.elapsed es ->
   MealSim.isSimulating (Loop.ui w') = false
   /\ Loop.timers w' = []
   /\ MealSim.showPrediction (Loop.ui w') = true)
  /\ (Loop.clock w + MealSim.elapsed es < t ->
      MealSim.isSimulating (Loop.ui w') = true
      /\ Loop.timers w' = [t]).
Proof.
  revert w; induction es as [|e es IH]; intros w Hes Hs Ht Hc; simpl.
  - split; [lia | auto].
  - simpl in Hes; apply andb_true_iff in Hes as [He Hes].
    change (MealSim.run w (e :: es))
      with (MealSim.run (MealSim.step w e) es).
    destruct e as [field value|index| |ms]; try discriminate.
    + exact (IH (MealSim.step w (MealSim.Input field value)) Hes Hs Ht Hc).
    + assert (E : MealSim.isSimulating
                    (Loop.ui (MealSim.step w (MealSim.Preset index))) = true
                  /\ Loop.timers (MealSim.step w (MealSim.Preset index)) = [t]
                  /\ Loop.clock (MealSim.step w (MealSim.Preset index)) =
                       Loop.clock w).
      { simpl; destruct (nth_error MealSim.presetMeals index);
          repeat split; assumption. }
      destruct E as (E1 & E2 & E3).
      rewrite <- E3 in *.
      exact (IH (MealSim.step w (MealSim.Preset index)) Hes E1 E2 Hc).
    + pose proof (elapsed_nonneg es) as Hn.
      destruct (Z.leb_spec t (Loop.clock w + Z.of_N ms)) as [Hdue|Hdue].
      * assert (Hstep : MealSim.step w (MealSim.Elapse ms) =
                        Loop.mkWorld
                          (MealSim.onSimulated t (Loop.ui w))
                          (Loop.clock w + Z.of_N ms) []).
        { simpl; unfold Loop.elapse; rewrite Ht; simpl.
          replace (t <=? Loop.clock w + Z.of_N ms) with true
            by (symmetry; apply Z.leb_le; lia).
          reflexivity. }
        rewrite Hstep; split; [intros _|lia].
        destruct (idle_run_without_click es
                    (Loop.mkWorld (MealSim.onSimulated t (Loop.ui w))
                       (Loop.clock w + Z.of_N ms) []) Hes)
          as [H1 H2]; [reflexivity | reflexivity|].
        split; [exact H1|]; split; [exact H2|].
        now apply meal_run_keeps_shown.
      * assert (Hstep : MealSim.step w (MealSim.Elapse ms) =
                        Loop.mkWorld (Loop.ui w)
                          (Loop.clock w + Z.of_N ms) [t]).
        { simpl; unfold Loop.elapse; rewrite Ht; simpl.
          replace (t <=? Loop.clock w + Z.of_N ms) with false
            by (symmetry; apply Z.leb_gt; lia).
          reflexivity. }
        rewrite Hstep.
        destruct (IH (Loop.mkWorld (Loop.ui w)
                        (Loop.clock w + Z.of_N ms) [t]) Hes Hs eq_refl Hdue)
          as [Hdone Hwait]; simpl in Hdone, Hwait.
        split; intros H; [apply Hdone | apply Hwait]; lia.
Qed.

(** Edits and presets applied while a simulation is pending neither
    cancel nor delay it.  From every reachable state, after any session
    of form edits, preset clicks and waiting, without a click on
    Simulate Impact: once the session has let 2000 ms or more pass, no
    simulation is pending and, if one was pending, its prediction is
    shown; and as long as the clock has not reached the due time of the
    pending simulation, it is still pending with that due time.  Waiting
    alone leaves the form as it is. *)
Theorem simulation_always_ends
    (w : MealSim.World) (es : list MealSim.Event) :
  MealSim.reachable w ->
  forallb MealSim.noSimulate es = true ->
  let w' := MealSim.run w es in
  (2000 <= MealSim.elapsed es ->
   MealSim.isSimulating (Loop.ui w') = false
   /\ Loop.timers w' = []
   /\ (MealSim.isSimulating (Loop.ui w) = true ->
       MealSim.shownSeries (Loop.ui w') = Some MealSim.predictionData))
  /\ (forall t,
        Loop.timers w = [t] ->
        Loop.clock w + MealSim.elapsed es < t ->
        MealSim.isSimulating (Loop.ui w') = true /\ Loop.timers w' = [t])
  /\ (forall ms,
        MealSim.mealForm (Loop.ui (MealSim.step w (MealSim.Elapse ms))) =
        MealSim.mealForm (Loop.ui w)).
Proof.
  intros Hr Hes w'; subst w'.
  pose proof (meal_reachable_wellTimed w Hr) as Hdue.
  unfold MealSim.wellTimed in Hdue.
  pose proof (elapsed_nonneg es) as Hn.
  split; [|split].
  - intros Hms.
    destruct (reachable_settled w Hr) as [[Hs Ht]|[Hs [t Ht]]].
    + destruct (idle_run_without_click es w Hes Hs Ht) as [H1 H2].
      repeat split; [exact H1 | exact H2 | congruence].
    + rewrite Ht in Hdue; inversion Hdue as [|? ? Hd _]; subst.
      destruct (pending_run_without_click es w t Hes Hs Ht) as [Hdone _];
        [lia|].
      destruct Hdone as (H1 & H2 & H3); [lia|].
      repeat split; [exact H1 | exact H2|].
      intros _; unfold MealSim.shownSeries; now rewrite H3.
  - intros t Ht Hearly.
    destruct (reachable_settled w Hr) as [[Hs Ht']|[Hs _]];
      [congruence|].
    rewrite Ht in Hdue; inversion Hdue as [|? ? Hd _]; subst.
    destruct (pending_run_without_click es w t Hes Hs Ht) as [_ Hwait];
      [lia|].
    now apply Hwait.
  - intros ms.
    destruct (meal_elapse_ui ms w) as (-> & _ & _).
    apply simulations_due.
Qed.

Lemma simulation_always_ends_witness :
  let w :=
    MealSim.run Scenario.dosed
      [MealSim.ClickSimulate; MealSim.Elapse 1500; MealSim.Preset 3] in
  let edits :=
    [MealSim.Input MealSim.Carbs (lit "10"); MealSim.Elapse 300;
     MealSim.Preset 0; MealSim.Elapse 1700] in
  MealSim.isSimulating (Loop.ui w) = true
  /\ MealSim.shownSeries (Loop.ui (MealSim.run w edits)) =
       Some MealSim.predictionData.
Proof.
  intros w edits; split; [reflexivity|].
  assert (Hr : MealSim.reachable w).
  { exists Scenario.mountTime.
    exists [MealSim.Input MealSim.Description (lit "Rice bowl");
            MealSim.Input MealSim.Carbs (lit "50");
            MealSim.Input MealSim.Insulin (lit "4");
            MealSim.ClickSimulate; MealSim.Elapse 1500; MealSim.Preset 3].
    reflexivity. }
  destruct (simulation_always_ends w edits Hr eq_refl) as [H _].
  destruct H as (_ & _ & H); [simpl; lia|].
  now apply H.
Defined.

(** Every preset makes the form ready: after a click on any of the
    presets, with no simulation pending, Simulate Impact is enabled and a
    click on it starts the simulation. *)
Theorem preset_enables_simulate
    (index : nat) (p : MealSim.PresetMeal) (w : MealSim.World) :
  nth_error MealSim.presetMeals index = Some p ->
  MealSim.isSimulating (Loop.ui w) = false ->
  let w' := MealSim.step w (MealSim.Preset index) in
  MealSim.simulateDisabled (Loop.ui w') = false
  /\ MealSim.isSimulating (Loop.ui (MealSim.simulate w')) = true
  /\ Loop.timers (MealSim.simulate w') =
       Loop.timers w ++ [Loop.clock w + 2000].
Proof.
  intros Hp Hs w'.
  assert (Hd : MealSim.simulateDisabled (Loop.ui w') = false).
  { subst w'; simpl; rewrite Hp; unfold MealSim.simulateDisabled; simpl.
    rewrite Hs.
    do 4 (destruct index as [|index];
          [injection Hp as <-; reflexivity|]).
    destruct index; discriminate. }
  split; [exact Hd|].
  rewrite simulate_enabled by exact Hd.
  subst w'; simpl; rewrite Hp; split; reflexivity.
Qed.

Lemma preset_enables_simulate_witness :
  MealSim.simulateDisabled
    (Loop.ui
       (MealSim.step (MealSim.mount Scenario.mountTime)
          (MealSim.Preset 2))) = false.
Proof.
  apply (preset_enables_simulate 2
           (MealSim.mkPreset (lit "Greek Yogurt with Berries") (lit "20")
              (lit "low"))
           (MealSim.mount Scenario.mountTime));
    reflexivity.
Defined.

(** Form edits are independent field by field: a second edit of the same
    field replaces the first, and edits of different fields give the
    same form in either order. *)
Theorem form_edits_compose
    (f g : MealSim.Field) (u v : jsstring) (m : MealSim.MealForm) :
  MealSim.assign f v (MealSim.assign f u m) = MealSim.assign f v m
  /\ (f <> g ->
      MealSim.assign f u (MealSim.assign g v m) =
      MealSim.assign g v (MealSim.assign f u m)).
Proof.
  split.
  - destruct f; reflexivity.
  - intros Hfg; destruct f, g; try reflexivity; now elim Hfg.
Qed.

Lemma form_edits_compose_witness :
  MealSim.assign MealSim.Carbs (lit "45")
    (MealSim.assign MealSim.Insulin (lit "4") (MealSim.mkForm [] [] [] [])) =
  MealSim.assign MealSim.Insulin (lit "4")
    (MealSim.assign MealSim.Carbs (lit "45") (MealSim.mkForm [] [] [] [])).
Proof.
  apply (form_edits_compose MealSim.Carbs MealSim.Insulin (lit "45")
           (lit "4") (MealSim.mkForm [] [] [] [])).
  discriminate.
Defined.

(** ** Trends: further properties *)

(** The tooltip colours partition the readings into three bands: amber
    exactly below 70, red exactly above 140 and green exactly from 70 to
    140, both ends included, as the legend of the chart says. *)
Theorem glucose_bands (value : Z) :
  (Trends.getGlucoseColor value = lit "#f59e0b" <-> value < 70)
  /\ (Trends.getGlucoseColor value = lit "#ef4444" <-> 140 < value)
  /\ (Trends.getGlucoseColor value = lit "#10b981" <->
      70 <= value <= 140).
Proof.
  unfold Trends.getGlucoseColor.
  destruct (value <? 70) eqn:E1;
    [apply Z.ltb_lt in E1
    |apply Z.ltb_ge in E1; destruct (140 <? value) eqn:E2;
     [apply Z.ltb_lt in E2 | apply Z.ltb_ge in E2]];
    (split; [|split]); (split; intros Hx);
    first [lia | reflexivity | vm_compute in Hx; discriminate Hx].
Qed.

Lemma trends_run_lastWrite (es : list Trends.Event) (s : Trends.State) :
  Trends.start (Trends.dateRange (Trends.run s es)) =
    Trends.lastWrite Trends.writesStart
      (Trends.start (Trends.dateRange s)) es
  /\ Trends.end_ (Trends.dateRange (Trends.run s es)) =
       Trends.lastWrite Trends.writesEnd
         (Trends.end_ (Trends.dateRange s)) es
  /\ Trends.mealFilter (Trends.run s es) =
       Trends.lastWrite Trends.writesMeal (Trends.mealFilter s) es.
Proof.
  revert s; induction es as [|e es IH]; intros s; [repeat split|].
  change (Trends.run s (e :: es)) with (Trends.run (Trends.step s e) es).
  destruct (IH (Trends.step s e)) as (-> & -> & ->).
  destruct e; repeat split.
Qed.

(** Each of the three filter controls holds the value last written to it
    and is unaffected by the other two, in whatever order they are
    edited; dates are stored as given, a start after the end included. *)
Theorem filters_last_write (es : list Trends.Event) :
  let v := Trends.render (Trends.run Trends.initialState es) in
  Trends.startInput v =
    Trends.lastWrite Trends.writesStart (lit "2025-01-20") es
  /\ Trends.endInput v =
       Trends.lastWrite Trends.writesEnd (lit "2025-01-25") es
  /\ Trends.mealSelect v = Trends.lastWrite Trends.writesMeal (lit "all") es.
Proof. apply (trends_run_lastWrite es Trends.initialState). Qed.

(** A start date after the end date is accepted and shown. *)
Lemma reversed_range_stored :
  let v :=
    Trends.render
      (Trends.run Trends.initialState
         [Trends.ChangeEnd (lit "2025-01-01");
          Trends.SelectMeal (lit "lunch");
          Trends.ChangeStart (lit "2025-12-31")]) in
  Trends.startInput v = lit "2025-12-31"
  /\ Trends.endInput v = lit "2025-01-01".
Proof. split; reflexivity. Qed.

(** ** Navigation: further properties *)

Lemma active_iff_listed (p : jsstring) (items : list Nav.MenuItem) :
  In true (map (fun item => Nav.isActive p (Nav.url item)) items) <->
  In p (map Nav.url items).
Proof.
  induction items as [|item items IH]; simpl; [tauto|].
  rewrite IH; unfold Nav.isActive.
  rewrite strictEq_true_iff; intuition congruence.
Qed.

Lemma active_at_most_once (p : jsstring) (items : list Nav.MenuItem) :
  NoDup (map Nav.url items) ->
  (List.length
     (filter (fun b : bool => b)
        (map (fun item => Nav.isActive p (Nav.url item)) items)) <= 1)%nat.
Proof.
  induction items as [|item items IH]; simpl; intros Hn; [lia|].
  inversion Hn as [|? ? Hnotin Hn']; subst.
  destruct (Nav.isActive p (Nav.url item)) eqn:Ha; [|now apply IH].
  apply strictEq_true_iff in Ha; subst p; simpl.
  assert (E : filter (fun b : bool => b)
                (map (fun i => Nav.isActive (Nav.url item) (Nav.url i))
                   items) = []).
  { destruct (filter _ _) as [|b l] eqn:Ef; [reflexivity|].
    exfalso; apply Hnotin, (active_iff_listed (Nav.url item) items).
    assert (Hb : In b (b :: l)) by now left.
    rewrite <- Ef in Hb; apply filter_In in Hb as [Hb Htrue].
    now subst b. }
  rewrite E; simpl; lia.
Qed.

Lemma menu_urls_distinct : NoDup (map Nav.url Nav.menuItems).
Proof.
  repeat constructor; simpl; intuition discriminate.
Qed.

(** For every current path at most one sidebar entry is highlighted, and
    one is highlighted exactly when the path is one of the four menu
    paths; any other path, a sub-path included, highlights nothing. *)
Theorem one_entry_highlighted (currentPath : jsstring) :
  (List.length
     (filter (fun b : bool => b) (Nav.highlighted currentPath)) <= 1)%nat
  /\ (In true (Nav.highlighted currentPath) <->
      currentPath = lit "/" \/ currentPath = lit "/trends"
      \/ currentPath = lit "/meal-sim" \/ currentPath = lit "/settings").
Proof.
  split.
  - apply active_at_most_once, menu_urls_distinct.
  - unfold Nav.highlighted; rewrite active_iff_listed; simpl.
    intuition congruence.
Qed.

(** ** Settings *)

Lemma settings_step_cong (s1 s2 : Settings.State) (e : Settings.Event) :
  Settings.settings s1 = Settings.settings s2 ->
  Settings.settings (Settings.step s1 e) =
  Settings.settings (Settings.step s2 e).
Proof. intros H; destruct e; simpl; now rewrite H. Qed.

Lemma settings_step_button (s : Settings.State) (e : Settings.Event) :
  Settings.isEdit e = false ->
  Settings.settings (Settings.step s e) = Settings.settings s.
Proof. destruct e; simpl; intros H; try discriminate; reflexivity. Qed.

Lemma settings_run_edits (es : list Settings.Event)
    (s1 s2 : Settings.State) :
  Settings.settings s1 = Settings.settings s2 ->
  Settings.settings (Settings.run s1 es) =
  Settings.settings (Settings.run s2 (filter Settings.isEdit es)).
Proof.
  revert s1 s2; induction es as [|e es IH]; intros s1 s2 H; [exact H|].
  change (Settings.run s1 (e :: es))
    with (Settings.run (Settings.step s1 e) es).
  simpl; destruct (Settings.isEdit e) eqn:He.
  - change (Settings.run s2 (e :: filter Settings.isEdit es))
      with (Settings.run (Settings.step s2 e) (filter Settings.isEdit es)).
    apply IH; now apply settings_step_cong.
  - apply IH; now rewrite settings_step_button.
Qed.

Lemma settings_run_toasts (es : list Settings.Event) (s : Settings.State) :
  Settings.toasts (Settings.run s es) =
  Settings.toasts s
    ++ repeat Settings.savedToast
         (List.length (filter Settings.isSave es)).
Proof.
  revert s; induction es as [|e es IH]; intros s;
    [simpl; now rewrite app_nil_r|].
  change (Settings.run s (e :: es))
    with (Settings.run (Settings.step s e) es).
  rewrite IH; destruct e; simpl; try reflexivity.
  now rewrite <- app_assoc.
Qed.

(** The three buttons change no setting: a session leaves the settings
    exactly as its edits alone would, so Save stores nothing beyond what
    is already in the form and Clear All Data clears nothing; each click
    on Save asks for one "Settings Saved" toast and nothing else does. *)
Theorem buttons_change_no_setting
    (es : list Settings.Event) (s : Settings.State) :
  Settings.settings (Settings.run s es) =
    Settings.settings (Settings.run s (filter Settings.isEdit es))
  /\ Settings.toasts (Settings.run s es) =
       Settings.toasts s
         ++ repeat Settings.savedToast
              (List.length (filter Settings.isSave es)).
Proof.
  split; [now apply settings_run_edits | apply settings_run_toasts].
Qed.

Lemma range_step_cong (s1 s2 : Settings.State) (e : Settings.Event) :
  Settings.targetRange (Settings.settings s1) =
    Settings.targetRange (Settings.settings s2) ->
  Settings.targetRange (Settings.settings (Settings.step s1 e)) =
    Settings.targetRange (Settings.settings (Settings.step s2 e)).
Proof. intros H; destruct e; simpl; now rewrite ?H. Qed.

Lemma range_step_other (s : Settings.State) (e : Settings.Event) :
  Settings.isBoundChange e = false ->
  Settings.targetRange (Settings.settings (Settings.step s e)) =
    Settings.targetRange (Settings.settings s).
Proof. destruct e; simpl; intros H; try discriminate; reflexivity. Qed.

Lemma range_run_bounds (es : list Settings.Event)
    (s1 s2 : Settings.State) :
  Settings.targetRange (Settings.settings s1) =
    Settings.targetRange (Settings.settings s2) ->
  Settings.targetRange (Settings.settings (Settings.run s1 es)) =
    Settings.targetRange
      (Settings.settings
         (Settings.run s2 (filter Settings.isBoundChange es))).
Proof.
  revert s1 s2; induction es as [|e es IH]; intros s1 s2 H; [exact H|].
  change (Settings.run s1 (e :: es))
    with (Settings.run (Settings.step s1 e) es).
  simpl; destruct (Settings.isBoundChange e) eqn:He.
  - change (Settings.run s2 (e :: filter Settings.isBoundChange es))
      with (Settings.run (Settings.step s2 e)
              (filter Settings.isBoundChange es)).
    apply IH; now apply range_step_cong.
  - apply IH; now rewrite range_step_other.
Qed.

(** The target range is whatever its two inputs were last given: no
    other control touches it (switching the glucose unit does not convert
    the bounds), the two bounds are stored independently in either
    order, and any text is accepted, a minimum above the maximum
    included. *)
Theorem target_range_from_bounds
    (es : list Settings.Event) (s : Settings.State) (a b : jsstring) :
  Settings.targetRange (Settings.settings (Settings.run s es)) =
    Settings.targetRange
      (Settings.settings
         (Settings.run s (filter Settings.isBoundChange es)))
  /\ Settings.run s
       [Settings.ChangeBound Settings.Min a;
        Settings.ChangeBound Settings.Max b] =
     Settings.run s
       [Settings.ChangeBound Settings.Max b;
        Settings.ChangeBound Settings.Min a]
  /\ Settings.targetRange
       (Settings.settings
          (Settings.run s
             [Settings.ChangeBound Settings.Min a;
              Settings.ChangeBound Settings.Max b])) =
     Settings.mkRange a b.
Proof.
  split; [now apply range_run_bounds | split; reflexivity].
Qed.

(** Switching to mmol/L leaves the default bounds 70 and 140 as they
    are. *)
Lemma unit_switch_keeps_bounds :
  let s :=
    Settings.settings
      (Settings.step Settings.initialState
         (Settings.SelectGlucoseUnit (lit "mmol/L"))) in
  Settings.glucoseUnit s = lit "mmol/L"
  /\ Settings.targetRange s = Settings.mkRange (lit "70") (lit "140").
Proof. split; reflexivity. Qed.

(** ** Chat: message ids *)

Lemma lit_injective (a b : string) : lit a = lit b -> a = b.
Proof.
  unfold lit; intros H.
  rewrite <- (string_of_list_ascii_of_string a),
          <- (string_of_list_ascii_of_string b).
  f_equal.
  revert H; generalize (list_ascii_of_string a) (list_ascii_of_string b).
  induction l as [|x l IH]; intros [|y l']; simpl; intros H;
    try discriminate; [reflexivity|].
  injection H as Hxy Hl; f_equal; [|now apply IH].
  rewrite <- (ascii_N_embedding x), <- (ascii_N_embedding y).
  now rewrite Hxy.
Qed.

Lemma to_int_nonnil (z : Z) :
  Z.to_int z <> Decimal.Pos Decimal.Nil
  /\ Z.to_int z <> Decimal.Neg Decimal.Nil.
Proof.
  destruct z as [|p|p]; simpl; split; try discriminate;
    intros H; injection H; apply Unsigned.to_uint_nonnil.
Qed.

(** Different numbers print differently. *)
Lemma toString_injective (a b : Z) : toString a = toString b -> a = b.
Proof.
  unfold toString; intros H; apply lit_injective in H.
  apply DecimalZ.to_int_inj.
  assert (E : NilZero.int_of_string (NilZero.string_of_int (Z.to_int a)) =
              NilZero.int_of_string (NilZero.string_of_int (Z.to_int b)))
    by now rewrite H.
  rewrite !NilZero.isi in E by apply to_int_nonnil.
  now injection E.
Qed.

(** Two messages get the same id exactly when their clock readings
    coincide: two questions when sent in the same millisecond, two
    replies when created in the same millisecond, and a question and a
    reply when the question is sent one millisecond after the reply was
    created. *)
Theorem id_collisions (a b : Z) (s1 s2 : Chat.State) :
  (Chat.id (Chat.userMessage a s1) = Chat.id (Chat.userMessage b s2)
   <-> a = b)
  /\ (Chat.id (Chat.agentResponse a) = Chat.id (Chat.agentResponse b)
      <-> a = b)
  /\ (Chat.id (Chat.agentResponse a) = Chat.id (Chat.userMessage b s2)
      <-> b = a + 1).
Proof.
  simpl; repeat split; intros H; subst; try reflexivity;
    apply toString_injective in H; lia.
Qed.
